(** * The selection benchmark of [selection/run.py]: Storage Node and Compute Node

    A shallow embedding of [handle_client], [send_query_and_get_result] and
    [run_host_client], and the properties of the specification that concern
    them; then of [generate_queries] and of the metrics that [main] selects,
    with properties of their own.

    Conventions of the embedding.
    - Text is a [string]; a character stands for a code point below U+0100,
      on which [lower] and [strip] follow Python's [str.lower] and
      [str.strip].
    - Clock readings, CPU times and everything computed from them are
      rationals ([Q]); the arithmetic is exact.  A CSV row keeps the numbers
      that the program formats into its cells.
    - Python's [int] is [Z]; [bytes] is [list byte].
    - What the outside world does (socket, engine, file system, clocks) is
      given to each function as a record of observations.
    - The codecs of the Python runtime ([bytes.decode], [pickle]) are the
      operations of the class [Runtime].
    - A call that waits for ever (neither end of a connection sets a
      timeout) makes the block around it end as [Blocked]. *)

From Stdlib Require Import Strings.String Strings.Ascii Strings.Byte.
From Stdlib Require Import List Bool Arith ZArith QArith Lia Lqa.
From Stdlib Require Import Sorting.Sorted Sorting.Permutation.
From Stdlib Require Import Numbers.DecimalString.
Import ListNotations.

Local Open Scope string_scope.

(* ================================================================= *)
(** ** Python values *)

(** Subclasses of [Exception] that the modelled code can meet. *)
Inductive exn : Type :=
| UnboundLocalError (name : string)
| UnicodeDecodeError
| UnpicklingError
| PicklingError
| AttributeError
| EngineError (msg : string)
| OSError (msg : string)
| FileNotFoundError (path : string)
| TypeError (msg : string).

(** The result of an operation that either yields a value or raises. *)
Inductive outcome (A : Type) : Type :=
| Done (a : A)
| Raised (e : exn).
Arguments Done {A} a.
Arguments Raised {A} e.

(** A scalar of a result row, and a row as the engine returns it. *)
Inductive scalar : Type :=
| SNull
| SInt (z : Z)
| SNum (q : Q)
| SText (s : string).

Definition row : Type := list scalar.

(** [psutil]'s [cpu_times()]: the two fields the program reads. *)
Record cpu_times : Type := mk_cpu_times { user : Q; system : Q }.

(** [x > 0] on a number. *)
Definition Qpos (x : Q) : bool := if Qlt_le_dec 0 x then true else false.

(** [len] of a list or of [bytes]. *)
Definition len {A : Type} (l : list A) : Z := Z.of_nat (List.length l).

(* ================================================================= *)
(** ** Text operations *)

Module Text.

Definition code (c : ascii) : nat := nat_of_ascii c.

(** Cased upper-case code points below U+0100: [A]-[Z], and U+00C0-U+00DE
    without the multiplication sign U+00D7. *)
Definition is_upper (c : ascii) : bool :=
  let n := code c in
  ((65 <=? n) && (n <=? 90))%nat
  || ((192 <=? n) && (n <=? 222) && negb (n =? 215))%nat.

Definition lower_char (c : ascii) : ascii :=
  if is_upper c then ascii_of_nat (code c + 32) else c.

(** [s.lower()] *)
Fixpoint lower (s : string) : string :=
  match s with
  | EmptyString => EmptyString
  | String c s' => String (lower_char c) (lower s')
  end.

(** White space as [str.strip()] sees it: U+0009-U+000D, U+001C-U+0020,
    U+0085 and U+00A0. *)
Definition is_space (c : ascii) : bool :=
  let n := code c in
  ((9 <=? n) && (n <=? 13))%nat || ((28 <=? n) && (n <=? 32))%nat
  || (n =? 133)%nat || (n =? 160)%nat.

Fixpoint lstrip (s : string) : string :=
  match s with
  | EmptyString => EmptyString
  | String c s' => if is_space c then lstrip s' else s
  end.

Fixpoint rstrip (s : string) : string :=
  match s with
  | EmptyString => EmptyString
  | String c s' =>
      match rstrip s' with
      | EmptyString => if is_space c then EmptyString else String c EmptyString
      | r => String c r
      end
  end.

(** [s.strip()] *)
Definition strip (s : string) : string := rstrip (lstrip s).

(** [sub in s] *)
Fixpoint str_in (sub s : string) : bool :=
  prefix sub s
  || match s with
     | EmptyString => false
     | String _ s' => str_in sub s'
     end.

(** [s.find(sub, start)] for [start >= 0]: the least index at or after
    [start] where [sub] occurs, [-1] when there is none. *)
Definition find (sub s : string) (start : nat) : Z :=
  match index start sub s with
  | Some i => Z.of_nat i
  | None => (-1)%Z
  end.

(** [s[i:j]] for [0 <= i]. *)
Definition slice (s : string) (i j : Z) : string :=
  substring (Z.to_nat i) (Z.to_nat (j - i)) s.

(** [s.startswith(p)] *)
Definition startswith (s p : string) : bool := prefix p s.

(** [s.endswith(p)] *)
Definition endswith (s p : string) : bool :=
  (String.length p <=? String.length s)%nat
  && (substring (String.length s - String.length p) (String.length p) s =? p).

End Text.

(* ================================================================= *)
(** ** The response envelope and the runtime codecs *)

(** [payload_dict] of [handle_client]. *)
Record Payload : Type := mk_payload {
  p_rows : list row;
  p_scanned_rows : Z;
  p_query_time : Q
}.

(** What a response dict holds under one of its keys, as the run uses it:
    a value of the type that [handle_client] puts there, or another value,
    on which the first statement of the loop of [run_host_client] that
    works on it raises [e] ([len(None)], [None > 0] and [0 + None] raise
    TypeError). *)
Inductive held (A : Type) : Type :=
| Expected (a : A)
| Other (e : exn).
Arguments Expected {A} a.
Arguments Other {A} e.

(** What [pickle.loads] can yield, as far as [send_query_and_get_result]
    looks at it: a dict, of which only the three keys are read, each of
    which may be absent and may hold a value of any type, or an object that
    is no dict. *)
Inductive pickled : Type :=
| PDict (rows : option (held (list row))) (scanned_rows : option (held Z))
        (query_time : option (held Q))
| PObject.

Class Runtime : Type := {
  (** [data.decode("utf-8")]; [None] when it raises. *)
  decode_utf8 : list byte -> option string;
  (** [pickle.dumps(payload_dict)]; [None] when it raises. *)
  pickle_dumps : Payload -> option (list byte);
  (** [pickle.loads(received_data)]; [None] when it raises. *)
  pickle_loads : list byte -> option pickled
}.

(* ================================================================= *)
(** ** Statements that can return early or raise *)

(** How a block of statements ends: it falls through with a value, it
    executes [return], or it raises; or it does not end, because a call in
    it waits for ever. *)
Inductive signal (A : Type) : Type :=
| Value (a : A)
| Returning
| Raising (e : exn)
| Blocked.
Arguments Value {A} a.
Arguments Returning {A}.
Arguments Raising {A} e.
Arguments Blocked {A}.

(** A block over a state [S] (the local variables and the files and sockets
    it writes to). *)
Definition block (S A : Type) : Type := S -> S * signal A.

Definition pure {S A : Type} (a : A) : block S A := fun s => (s, Value a).

Definition bind {S A B : Type} (m : block S A) (k : A -> block S B)
  : block S B :=
  fun s =>
    match m s with
    | (s', Value a) => k a s'
    | (s', Returning) => (s', Returning)
    | (s', Raising e) => (s', Raising e)
    | (s', Blocked) => (s', Blocked)
    end.

Definition return_ {S A : Type} : block S A := fun s => (s, Returning).
Definition raise {S A : Type} (e : exn) : block S A := fun s => (s, Raising e).
Definition blocked {S A : Type} : block S A := fun s => (s, Blocked).
Definition modify {S : Type} (f : S -> S) : block S unit :=
  fun s => (f s, Value tt).

(** A call into the outside world, whose result is already observed. *)
Definition call {S A : Type} (r : outcome A) : block S A :=
  match r with
  | Done a => pure a
  | Raised e => raise e
  end.

(** A call into the runtime that raises [e] when it yields nothing. *)
Definition call_or {S A : Type} (e : exn) (r : option A) : block S A :=
  match r with
  | Some a => pure a
  | None => raise e
  end.

(** A call that may never return: [None] when it does not. *)
Definition wait {S A : Type} (r : option A) : block S A :=
  match r with
  | Some a => pure a
  | None => blocked
  end.

(** A statement that works on a value of a response. *)
Definition use {S A : Type} (v : held A) : block S A :=
  match v with
  | Expected a => pure a
  | Other e => raise e
  end.

Declare Scope block_scope.
Delimit Scope block_scope with block.
Notation "x <- m ;; k" := (bind m (fun x => k))
  (at level 61, m at next level, right associativity) : block_scope.
Notation "m ;; k" := (bind m (fun _ => k))
  (at level 61, right associativity) : block_scope.

(** [try: body  except Exception: handler]. *)
Definition try_except {S A : Type} (body handler : block S A) : block S A :=
  fun s =>
    match body s with
    | (s', Raising _) => handler s'
    | r => r
    end.

(** [try: body  except Exception: handler  finally: fin].  The [finally]
    block runs whenever the protected part ends; when it raises, its
    exception replaces whatever the protected part was about to do, and
    otherwise that goes on. *)
Definition try_except_finally {S A : Type}
    (body handler : block S A) (fin : block S unit) : block S A :=
  fun s =>
    match try_except body handler s with
    | (s1, Blocked) => (s1, Blocked)
    | (s1, r1) =>
        match fin s1 with
        | (s2, Value _) => (s2, r1)
        | (s2, Returning) => (s2, Returning)
        | (s2, Raising e) => (s2, Raising e)
        | (s2, Blocked) => (s2, Blocked)
        end
    end.

(* ================================================================= *)
(** ** Storage Node: [handle_client] *)

Module Storage.
Import Text.
Local Open Scope block_scope.
Local Open Scope Z_scope.

(** A row of [dpu_results_*.csv], under the header
    [QueryID, ExecutionTime, RowsReturned, ScannedRows, CPUUsage,
    WallClockTime]. *)
Record DpuRow : Type := mk_dpu_row {
  QueryID : string;
  ExecutionTime : Q;
  RowsReturned : Z;
  ScannedRows : Z;
  CPUUsage : Q;
  WallClockTime : Q
}.

(** What happens around one accepted connection, in the order in which
    [handle_client] asks for it. *)
Record Connection : Type := mk_connection {
  cpu_times_start : cpu_times;          (* process.cpu_times() *)
  start_wall_time : Q;                  (* time.time() *)
  recv : outcome (list byte);           (* conn.recv(4096) *)
  query_start : Q;                      (* time.time() *)
  execute : string -> outcome (list row); (* con.execute(q).fetchall() *)
  query_end : Q;                        (* time.time() *)
  sendall : list byte -> outcome unit;  (* conn.sendall(payload) *)
  cpu_times_end : cpu_times;            (* process.cpu_times() *)
  end_wall_time : Q;                    (* time.time() *)
  csv_open : outcome unit               (* open(result_file, 'a') *)
}.

(** The local variables of [handle_client] that are read in its [except]
    and [finally] parts; [None] is an unbound local. *)
Record Locals : Type := mk_locals {
  query_id : option string;
  query_time : option Q;
  result_data : option (list row);
  scanned_rows : option Z
}.

(** The state of one handler: its locals, the response written to the
    connection, and the result file. *)
Record State : Type := mk_state {
  locals : Locals;
  sent : option (list byte);
  result_file : list DpuRow
}.

Definition unbound : Locals := mk_locals None None None None.

Definition set_query_id (v : string) : block State unit :=
  modify (fun s =>
    let l := locals s in
    mk_state (mk_locals (Some v) (query_time l) (result_data l)
                (scanned_rows l))
             (sent s) (result_file s)).

Definition set_query_time (v : Q) : block State unit :=
  modify (fun s =>
    let l := locals s in
    mk_state (mk_locals (query_id l) (Some v) (result_data l)
                (scanned_rows l))
             (sent s) (result_file s)).

Definition set_result_data (v : list row) : block State unit :=
  modify (fun s =>
    let l := locals s in
    mk_state (mk_locals (query_id l) (query_time l) (Some v)
                (scanned_rows l))
             (sent s) (result_file s)).

Definition set_scanned_rows (v : Z) : block State unit :=
  modify (fun s =>
    let l := locals s in
    mk_state (mk_locals (query_id l) (query_time l) (result_data l)
                (Some v))
             (sent s) (result_file s)).

(** Reading a local raises [UnboundLocalError] while it is unbound. *)
Definition read {A : Type} (name : string) (field : Locals -> option A)
  : block State A :=
  fun s =>
    match field (locals s) with
    | Some v => (s, Value v)
    | None => (s, Raising (UnboundLocalError name))
    end.

Definition deliver (payload : list byte) : block State unit :=
  modify (fun s => mk_state (locals s) (Some payload) (result_file s)).

Definition writerow (r : DpuRow) : block State unit :=
  modify (fun s => mk_state (locals s) (sent s) (result_file s ++ [r])).

(** Lines 211-217: the tracing id taken from a [query6_<n>.sql] hint. *)
Definition extract_query_id (query : string) : string :=
  if str_in "query6_" query then
    let start_idx := find "query6_" query 0 + Z.of_nat (String.length "query6_") in
    let end_idx := find ".sql" query (Z.to_nat start_idx) in
    if start_idx <? end_idx then slice query start_idx end_idx
    else "unknown"
  else "unknown".

(** Lines 223-232: the scanned-row estimate. *)
Definition estimate_scanned_rows (query : string) (scale_factor : Z) : Z :=
  let lower_q := lower query in
  if str_in "lineitem" lower_q then
    if scale_factor =? 1 then 6001215
    else if scale_factor =? 10 then 60012150
    else 6001215 * scale_factor
  else 0.

(** The [try] part, lines 206-248. *)
Definition try_part `{rt : Runtime} (c : Connection) (scale_factor : Z)
  : block State unit :=
  data <- call (recv c) ;;
  match data with
  | [] => return_
  | _ =>
    text <- call_or UnicodeDecodeError (decode_utf8 data) ;;
    let query := strip text in
    set_query_id (extract_query_id query) ;;
    set_scanned_rows (estimate_scanned_rows query scale_factor) ;;
    rows <- call (execute c query) ;;
    set_result_data rows ;;
    set_query_time (query_end c - query_start c)%Q ;;
    sr <- read "scanned_rows" scanned_rows ;;
    qt <- read "query_time" query_time ;;
    payload <- call_or PicklingError
                 (pickle_dumps (mk_payload rows sr qt)) ;;
    call (sendall c payload) ;;
    deliver payload
  end.

(** The [except Exception] part, lines 251-254. *)
Definition except_part : block State unit :=
  set_query_time 0%Q ;;
  set_result_data [] ;;
  set_scanned_rows 0.

(** The [finally] part, lines 256-285.  The log line of line 270 formats
    [query_id], outside the inner [try]; the row is written inside it. *)
Definition finally_part (c : Connection) (cpu_count : positive)
  : block State unit :=
  let user_time_diff := (user (cpu_times_end c) - user (cpu_times_start c))%Q in
  let sys_time_diff := (system (cpu_times_end c) - system (cpu_times_start c))%Q in
  let wall_clock_diff := (end_wall_time c - start_wall_time c)%Q in
  let cpu_usage_pct :=
    if Qpos wall_clock_diff
    then ((user_time_diff + sys_time_diff)
          / (wall_clock_diff * inject_Z (Zpos cpu_count)) * 100)%Q
    else 0%Q in
  _ <- read "query_id" query_id ;;
  try_except
    (call (csv_open c) ;;
     qid <- read "query_id" query_id ;;
     qt <- read "query_time" query_time ;;
     rd <- read "result_data" result_data ;;
     sr <- read "scanned_rows" scanned_rows ;;
     writerow (mk_dpu_row qid qt (len rd) sr cpu_usage_pct wall_clock_diff))
    (pure tt).

(** [handle_client(conn, addr, con, cpu_count, process, result_file,
    scale_factor)], started on the result file as it stands.  [cpu_count]
    is [psutil.cpu_count(logical=True)], a positive number. *)
Definition handle_client `{rt : Runtime} (c : Connection) (cpu_count : positive)
    (file : list DpuRow) (scale_factor : Z) : State * signal unit :=
  try_except_finally
    (try_part c scale_factor) except_part (finally_part c cpu_count)
    (mk_state unbound None file).

(** The handler came back to the thread that runs it. *)
Definition completed (r : State * signal unit) : bool :=
  match snd r with
  | Raising _ | Blocked => false
  | _ => true
  end.

(** The rows the handler added to the result file [file]. *)
Definition appended (file : list DpuRow) (r : State * signal unit)
  : list DpuRow :=
  skipn (List.length file) (result_file (fst r)).

End Storage.

(* ================================================================= *)
(** ** Compute Node: [send_query_and_get_result] and [run_host_client] *)

Module Compute.
Import Text.
Local Open Scope block_scope.
Local Open Scope Z_scope.

(** A row of [host_results_*.csv], under the header
    [QueryFile, ReturnedRows, ScannedRows, DataTransferTime, DataSize,
    ServerQueryTime, CPUUsage, Throughput]. *)
Record HostRow : Type := mk_host_row {
  QueryFile : string;
  ReturnedRows : Z;
  ScannedRows : Z;
  DataTransferTime : Q;
  DataSize : Z;
  ServerQueryTime : Q;
  CPUUsage : Q;
  Throughput : Q
}.

(** [metrics_data], the summary that [run_host_client] returns. *)
Record AggregateSummary : Type := mk_summary {
  ThroughPut : Q;
  execution_time : Q;
  cpu_usage : Q;
  total_scanned_rows : Z;
  total_returned_rows : Z
}.

(** What happens around one call of [send_query_and_get_result]. *)
Record Exchange : Type := mk_exchange {
  single_query_cpu_start : cpu_times;
  single_query_wall_start : Q;
  start_time : Q;
  (** whether connect, [sendall] of the query and the [recv] loop come to
      an end: no timeout is set, and [recv] waits for as long as the server
      neither sends nor closes; [handle_client] in turn waits in its own
      [recv] for a request, which an empty query never brings. *)
  ends : string -> bool;
  (** how they end: all the bytes received up to the end of the stream,
      or the exception raised. *)
  transport : string -> outcome (list byte);
  end_time : Q;
  single_query_cpu_end : cpu_times;
  single_query_wall_end : Q
}.

(** A name of the directory listing when its turn comes. *)
Inductive FileState : Type :=
| Missing                        (* os.path.exists is false *)
| Unreadable (e : exn)           (* open or read raises *)
| Readable (text : string).

(** What happens around one run of the host client. *)
Record Host : Type := mk_host {
  cpu_times_start : cpu_times;
  overall_start : Q;
  listdir : outcome (list string);   (* os.listdir(query_dir) *)
  num_cpus : positive;               (* psutil.cpu_count(logical=True) *)
  file : string -> FileState;
  exchange : Z -> Exchange;          (* by the number of calls before it *)
  cpu_times_end : cpu_times;
  overall_end : Q
}.

(** The running totals, the data rows of the CSV log under its header,
    and [benchmark_metrics.json]. *)
Record State : Type := mk_state {
  total_scanned : Z;
  total_rows_returned : Z;
  total_data_time : Q;
  total_data_size : Z;
  total_query_exec_time : Q;
  executed_count : Z;
  result_file : list HostRow;
  metrics_file : option AggregateSummary
}.

Definition initial : State :=
  mk_state 0 0 0%Q 0 0%Q 0 [] None.

Definition get : block State State := fun s => (s, Value s).

(** [dict.get(key, default)] *)
Definition get_default {A : Type} (v : option A) (default : A) : A :=
  match v with
  | Some a => a
  | None => default
  end.

(** [send_query_and_get_result(query, host, port)]: the tuple
    [(result_rows, scanned_rows, data_time, data_size,
    server_query_time)], or [None] when the call does not return.  What
    the dict holds under its keys is passed on as it is (lines 320-323). *)
Definition send_query_and_get_result `{rt : Runtime} (x : Exchange)
    (query : string)
  : option (held (list row) * held Z * Q * Z * held Q) :=
  if ends x query then
    Some
      match transport x query with
      | Raised _ => (Expected [], Expected 0, 0%Q, 0, Expected 0%Q)
      | Done received_data =>
          let data_time := (end_time x - start_time x)%Q in
          let data_size := len received_data in
          match pickle_loads received_data with
          | Some (PDict rows scanned qt) =>
              (get_default rows (Expected []),
               get_default scanned (Expected 0), data_time, data_size,
               get_default qt (Expected 0%Q))
          | Some PObject | None =>
              (Expected [], Expected 0, data_time, data_size, Expected 0%Q)
          end
      end
  else None.

(** [list.sort()] on names: insertion into a sorted list, by the order of
    the code points. *)
Fixpoint insert (x : string) (l : list string) : list string :=
  match l with
  | [] => [x]
  | y :: l' => if (x <=? y)%string then x :: l else y :: insert x l'
  end.

Fixpoint sort (l : list string) : list string :=
  match l with
  | [] => []
  | x :: l' => insert x (sort l')
  end.

(** The corpus naming convention of line 345. *)
Definition matching (f : string) : bool :=
  startswith f "query6_" && endswith f ".sql".

(** [x / wall if wall > 0 and x > 0 else 0], lines 383 and 423. *)
Definition rate (x : Z) (wall : Q) : Q :=
  if Qpos wall && (0 <? x) then (inject_Z x / wall)%Q else 0%Q.

(** [(user + sys) / (wall * num_cpus) * 100.0 if wall > 0 else 0.0],
    lines 382 and 421. *)
Definition utilisation (t0 t1 : cpu_times) (wall : Q) (cpus : positive) : Q :=
  let user_diff := (user t1 - user t0)%Q in
  let sys_diff := (system t1 - system t0)%Q in
  if Qpos wall
  then ((user_diff + sys_diff) / (wall * inject_Z (Zpos cpus)) * 100)%Q
  else 0%Q.

(** The body of the loop of lines 357-413 for the file [qf].  The values
    of the response are worked on in the order of the lines: the scanned
    rows at line 383 when the round trip has taken time ([and] stops at
    its first operand otherwise), the rows at line 385, the scanned rows
    at line 387, the server time at line 390; the totals are local, so
    that an exception among these lines leaves nothing behind. *)
Definition iteration `{rt : Runtime} (w : Host) (qf : string)
  : block State unit :=
  match file w qf with
  | Missing => pure tt                                   (* continue *)
  | Unreadable e => raise e
  | Readable text =>
      let query := strip text in
      s <- get ;;
      let x := exchange w (executed_count s) in
      reply <- wait (send_query_and_get_result x query) ;;
      let '(result_rows, scanned_rows, data_time, data_size,
            server_query_time) := reply in
      let query_wall_diff :=
        (single_query_wall_end x - single_query_wall_start x)%Q in
      let single_query_cpu_usage_pct :=
        utilisation (single_query_cpu_start x) (single_query_cpu_end x)
          query_wall_diff (num_cpus w) in
      throughput <- (if Qpos query_wall_diff
                     then n <- use scanned_rows ;;
                          pure (rate n query_wall_diff)
                     else pure 0%Q) ;;
      result_rows <- use result_rows ;;
      let row_count := len result_rows in
      scanned_rows <- use scanned_rows ;;
      server_query_time <- use server_query_time ;;
      modify (fun s =>
        mk_state (total_scanned s + scanned_rows)
                 (total_rows_returned s + row_count)
                 (total_data_time s + data_time)%Q
                 (total_data_size s + data_size)
                 (total_query_exec_time s + server_query_time)%Q
                 (executed_count s + 1)
                 (result_file s
                  ++ [mk_host_row qf row_count scanned_rows data_time
                        data_size server_query_time
                        single_query_cpu_usage_pct throughput])
                 (metrics_file s))
  end.

(** [for qf in query_files: body] *)
Fixpoint for_each {S : Type} (query_files : list string)
    (body : string -> block S unit) : block S unit :=
  match query_files with
  | [] => pure tt
  | qf :: rest => body qf ;; for_each rest body
  end.

(** Lines 415-450: the summary, saved and returned. *)
Definition summarise (w : Host) : block State AggregateSummary :=
  s <- get ;;
  let overall_wall_time := (overall_end w - overall_start w)%Q in
  let overall_cpu_usage_pct :=
    utilisation (cpu_times_start w) (cpu_times_end w) overall_wall_time
      (num_cpus w) in
  let overall_throughput := rate (total_scanned s) overall_wall_time in
  let metrics_data :=
    mk_summary overall_throughput overall_wall_time overall_cpu_usage_pct
      (total_scanned s) (total_rows_returned s) in
  modify (fun s =>
    mk_state (total_scanned s) (total_rows_returned s) (total_data_time s)
      (total_data_size s) (total_query_exec_time s) (executed_count s)
      (result_file s) (Some metrics_data)) ;;
  pure metrics_data.

(** [run_host_client(dpu_ip, port, query_dir)], from the moment the CSV
    log holds its header. *)
Definition run_host_client `{rt : Runtime} (w : Host)
  : State * signal AggregateSummary :=
  (names <- call (listdir w) ;;
   let query_files := sort (filter matching names) in
   for_each query_files (iteration w) ;;
   summarise w) initial.

End Compute.

(* ================================================================= *)
(** ** Vocabulary of the statements *)

(** [sub] occurs in [s] as a contiguous piece. *)
Definition occurs (sub s : string) : Prop :=
  exists pre post, s = pre ++ sub ++ post.

(** A word: text without white space. *)
Fixpoint word (n : string) : Prop :=
  match n with
  | EmptyString => True
  | String a n' => Text.is_space a = false /\ word n'
  end.

(** The query text of a request, as [handle_client] names it: the received
    bytes decoded and stripped. *)
Definition request_text `{rt : Runtime} (data : list byte) (query : string) : Prop :=
  exists text, decode_utf8 data = Some text /\ query = Text.strip text.

(** The order of [list.sort()] on names. *)
Definition name_le (a b : string) : Prop := (a <=? b)%string = true.

(** The existence check of line 359 passes for the name [f]. *)
Definition present (w : Compute.Host) (f : string) : bool :=
  match Compute.file w f with
  | Compute.Missing => false
  | _ => true
  end.

(** The file named [f] can be opened and read. *)
Definition readable (w : Compute.Host) (f : string) : Prop :=
  forall e, Compute.file w f <> Compute.Unreadable e.

(** The query that the run sends for the file [f], if it reads it. *)
Definition query_of (w : Compute.Host) (f : string) : option string :=
  match Compute.file w f with
  | Compute.Readable text => Some (Text.strip text)
  | _ => None
  end.

(** The round-trip wall-clock time that the run measures around the call
    number [i]. *)
Definition round_trip (w : Compute.Host) (i : nat) : Q :=
  let x := Compute.exchange w (Z.of_nat i) in
  (Compute.single_query_wall_end x - Compute.single_query_wall_start x)%Q.

(** The sum of a column of integers. *)
Definition total (l : list Z) : Z := fold_right Z.add 0%Z l.

(** [row] is what the loop writes for the file it names, as the call
    number [i] of [send_query_and_get_result]. *)
Definition logged `{rt : Runtime} (w : Compute.Host) (i : nat)
    (row : Compute.HostRow) : Prop :=
  exists query result_rows scanned_rows data_time data_size
         server_query_time,
    query_of w (Compute.QueryFile row) = Some query
    /\ let x := Compute.exchange w (Z.of_nat i) in
       Compute.send_query_and_get_result x query
       = Some (Expected result_rows, Expected scanned_rows, data_time,
               data_size, Expected server_query_time)
       /\ row = Compute.mk_host_row (Compute.QueryFile row)
                  (len result_rows) scanned_rows data_time data_size
                  server_query_time
                  (Compute.utilisation (Compute.single_query_cpu_start x)
                     (Compute.single_query_cpu_end x) (round_trip w i)
                     (Compute.num_cpus w))
                  (Compute.rate scanned_rows (round_trip w i)).

(** The state of the loop once it has written [row] and added its numbers
    to the totals. *)
Definition advance (s : Compute.State) (row : Compute.HostRow)
  : Compute.State :=
  Compute.mk_state
    (Compute.total_scanned s + Compute.ScannedRows row)%Z
    (Compute.total_rows_returned s + Compute.ReturnedRows row)%Z
    (Compute.total_data_time s + Compute.DataTransferTime row)%Q
    (Compute.total_data_size s + Compute.DataSize row)%Z
    (Compute.total_query_exec_time s + Compute.ServerQueryTime row)%Q
    (Compute.executed_count s + 1)%Z
    (Compute.result_file s ++ [row])
    (Compute.metrics_file s).

(** A key of a response dict is absent or holds a value of the type that
    [handle_client] puts under it. *)
Definition expected {A : Type} (v : option (held A)) : Prop :=
  forall e, v <> Some (Other e).

(** The round trip [x] for [query] comes to an end and, when its bytes
    load into a dict, the dict holds a list of rows, an int and a number
    under ['rows'], ['scanned_rows'] and ['query_time'], as far as it has
    these keys. *)
Definition orderly `{rt : Runtime} (x : Compute.Exchange) (query : string)
  : Prop :=
  Compute.ends x query = true
  /\ forall data rows scanned_rows query_time,
       Compute.transport x query = Done data ->
       pickle_loads data = Some (PDict rows scanned_rows query_time) ->
       expected rows /\ expected scanned_rows /\ expected query_time.

(** Whatever the number of the call, the round trip for the query of the
    file [f] is orderly. *)
Definition orderly_for `{rt : Runtime} (w : Compute.Host) (f : string)
  : Prop :=
  forall query i,
    query_of w f = Some query -> orderly (Compute.exchange w i) query.

(** What holds of the state of a run between two iterations of its loop:
    the counter and the totals agree with the rows written so far, and each
    row is the one that the loop writes at its position. *)
Definition consistent `{rt : Runtime} (w : Compute.Host) (s : Compute.State)
  : Prop :=
  Compute.executed_count s = len (Compute.result_file s)
  /\ Compute.total_scanned s
     = total (map Compute.ScannedRows (Compute.result_file s))
  /\ Compute.total_rows_returned s
     = total (map Compute.ReturnedRows (Compute.result_file s))
  /\ forall i row,
       nth_error (Compute.result_file s) i = Some row -> logged w i row.

(** All the fields of a summary are zero. *)
Definition all_zero (m : Compute.AggregateSummary) : Prop :=
  (Compute.ThroughPut m == 0)%Q /\ (Compute.execution_time m == 0)%Q
  /\ (Compute.cpu_usage m == 0)%Q
  /\ Compute.total_scanned_rows m = 0%Z
  /\ Compute.total_returned_rows m = 0%Z.

(* ================================================================= *)
(** ** Sample runs *)

Module Sample.
Local Open Scope Z_scope.

(** A runtime for the samples: ASCII is decoded, an envelope is written
    as the marker byte of a pickle followed by the low byte of its row
    count, and only a stream that starts with the marker is loaded; it
    loads into a dict that holds [None] under ['rows'] when the opcode of
    [None] follows the marker. *)
Definition runtime : Runtime := {|
  decode_utf8 := fun data =>
    if forallb (fun b => (Byte.to_N b <? 128)%N) data
    then Some (string_of_list_byte data) else None;
  pickle_dumps := fun p =>
    Some [x80; match Byte.of_N (N.of_nat (List.length (p_rows p)) mod 256) with
               | Some b => b
               | None => x00
               end];
  pickle_loads := fun data =>
    match data with
    | x80 :: rest =>
        Some (PDict
                (Some match rest with
                      | x4e :: _ =>
                          Other
                            (TypeError
                               "object of type 'NoneType' has no len()")
                      | _ => Expected [[SNum 1]]
                      end)
                (Some (Expected 6001215)) (Some (Expected (1#2)%Q)))
    | _ => None
    end
|}.

Definition query6 : string :=
  "SELECT column06 AS revenue FROM read_csv_auto('datasets/dataset_1/lineitem.tbl', delim='|') WHERE column04 < 6;".

Definition t0 : cpu_times := mk_cpu_times 0 0.
Definition t1 : cpu_times := mk_cpu_times (1#4) (1#4).

(** A connection that is served. *)
Definition served (q : string) : Storage.Connection :=
  Storage.mk_connection t0 10
    (Done (list_byte_of_string q))
    11 (fun _ => Done [[SNum 5]; [SNum 7]]) 12
    (fun _ => Done tt)
    t1 13 (Done tt).

(** A connection on which [recv] raises. *)
Definition reset : Storage.Connection :=
  Storage.mk_connection t0 10
    (Raised (OSError "Connection reset by peer"))
    11 (fun _ => Done []) 12
    (fun _ => Done tt)
    t1 13 (Done tt).

(** A connection on which the peer sends nothing. *)
Definition silent : Storage.Connection :=
  Storage.mk_connection t0 10
    (Done [])
    11 (fun _ => Done []) 12
    (fun _ => Done tt)
    t1 13 (Done tt).

(** A connection whose bytes are no UTF-8. *)
Definition garbled : Storage.Connection :=
  Storage.mk_connection t0 10
    (Done [xff; xfe])
    11 (fun _ => Done []) 12
    (fun _ => Done tt)
    t1 13 (Done tt).

(** A round trip that the server answers with [data], unless the query is
    empty: then nothing is sent, and the two ends wait for each other. *)
Definition answered (data : list byte) : Compute.Exchange :=
  Compute.mk_exchange t0 20 20 (fun query => negb (query =? "")%string)
    (fun _ => Done data) 21 t1 22.

(** A round trip on which the server cannot be reached. *)
Definition refused : Compute.Exchange :=
  Compute.mk_exchange t0 20 20 (fun _ => true)
    (fun _ => Raised (OSError "Connection refused")) 21 t1 22.

(** A host whose directory lists [names], with every listed file in the
    state [st], and every round trip [x]. *)
Definition host (names : outcome (list string))
    (st : string -> Compute.FileState) (x : Compute.Exchange)
  : Compute.Host :=
  Compute.mk_host t0 100 names 4%positive st (fun _ => x) t1 101.

Definition corpus : list string :=
  ["query6_2.sql"; "notes.txt"; "query6_10.sql"; "query6_1.sql"]%string.

(** A run over [corpus] in which every round trip is answered. *)
Definition healthy : Compute.Host :=
  host (Done corpus) (fun _ => Compute.Readable query6) (answered [x80; x01]).

(** A run over [corpus] in which [query6_2.sql] is gone when its turn
    comes. *)
Definition shrinking : Compute.Host :=
  host (Done corpus)
    (fun f => if (f =? "query6_2.sql")%string then Compute.Missing
              else Compute.Readable query6)
    (answered [x80; x01]).

(** A run over a directory whose only matching name fails the existence
    check. *)
Definition dangling : Compute.Host :=
  host (Done ["query6_1.sql"]%string) (fun _ => Compute.Missing)
    (answered [x80; x01]).

(** A run over [corpus] while the server cannot be reached. *)
Definition offline : Compute.Host :=
  host (Done corpus) (fun _ => Compute.Readable query6) refused.


(** A run over a directory without a query file. *)
Definition empty_corpus : Compute.Host :=
  host (Done ["notes.txt"; "query7_1.sql"]%string)
    (fun _ => Compute.Readable query6) (answered [x80; x01]).

(** A run whose query directory does not exist. *)
Definition no_directory : Compute.Host :=
  host (Raised (FileNotFoundError "queries")) (fun _ => Compute.Missing)
    refused.

End Sample.

(* ================================================================= *)
(** ** More vocabulary and sample runs *)

(** [pre] is what comes before the first occurrence of [sub] in [s]. *)
Definition first_at (sub s pre : string) : Prop :=
  (exists post, s = pre ++ sub ++ post)
  /\ forall pre' post',
       s = pre' ++ sub ++ post' ->
       (String.length pre <= String.length pre')%nat.

(** The host [w] with the directory listing [names]. *)
Definition with_listing (w : Compute.Host) (names : list string)
  : Compute.Host :=
  Compute.mk_host (Compute.cpu_times_start w) (Compute.overall_start w)
    (Done names) (Compute.num_cpus w) (Compute.file w) (Compute.exchange w)
    (Compute.cpu_times_end w) (Compute.overall_end w).

Module Scenario.
Local Open Scope Z_scope.

(** A connection whose query the engine rejects. *)
Definition rejected : Storage.Connection :=
  Storage.mk_connection Sample.t0 10
    (Done (list_byte_of_string "SELECT * FROM lineitem WHERE"))
    11 (fun _ => Raised (EngineError "Parser Error")) 12
    (fun _ => Done tt)
    Sample.t1 13 (Done tt).

(** A run over [Sample.corpus] in which [query6_10.sql] cannot be read. *)
Definition unreadable : Compute.Host :=
  Sample.host (Done Sample.corpus)
    (fun f => if (f =? "query6_10.sql")%string
              then Compute.Unreadable (OSError "Permission denied")
              else Compute.Readable Sample.query6)
    (Sample.answered [x80; x01]).

(** A run over [Sample.corpus] in which the dict of every response holds
    [None] under ['rows']. *)
Definition mistyped : Compute.Host :=
  Sample.host (Done Sample.corpus) (fun _ => Compute.Readable Sample.query6)
    (Sample.answered [x80; x4e]).

(** A run over [Sample.corpus] in which [query6_10.sql] holds white space
    only. *)
Definition blank : Compute.Host :=
  Sample.host (Done Sample.corpus)
    (fun f => if (f =? "query6_10.sql")%string
              then Compute.Readable "  "
              else Compute.Readable Sample.query6)
    (Sample.answered [x80; x01]).

End Scenario.

(* ================================================================= *)
(** ** The corpus: [generate_queries] *)

Module Corpus.
Import Text.

(** One step of [posixpath.join]: a component that starts with [/] replaces
    the path, and a separator is put in unless the path is empty or ends
    with one. *)
Definition join_step (path b : string) : string :=
  if startswith b "/" then b
  else if ((path =? "") || endswith path "/")%bool then path ++ b
  else path ++ "/" ++ b.

(** [os.path.join(a, *p)] *)
Definition join (a : string) (p : list string) : string :=
  fold_left join_step p a.

(** [str(i)] and [{i}] in an f-string, for an [int]. *)
Definition str (i : Z) : string := NilZero.string_of_int (Z.to_int i).

(** The line feed. *)
Definition nl : string := String (ascii_of_nat 10) "".

(** [DATASETS_DIR], line 35. *)
Definition DATASETS_DIR (SCRIPT_DIR : string) : string :=
  join SCRIPT_DIR ["datasets"].

(** [f"query6_{i}.sql"], line 134. *)
Definition query_name (i : Z) : string := "query6_" ++ str i ++ ".sql".

(** The f-string of lines 137-144. *)
Definition query_text (SCRIPT_DIR : string) (i : Z) : string :=
  nl ++ "        SELECT" ++ nl
  ++ "            column06 AS revenue " ++ nl
  ++ "        FROM" ++ nl
  ++ "            read_csv_auto('"
  ++ join (DATASETS_DIR SCRIPT_DIR) ["dataset_" ++ str i; "lineitem.tbl"]
  ++ "', delim='|')" ++ nl
  ++ "        WHERE" ++ nl
  ++ "            column04 < 6;" ++ nl
  ++ "        ".

(** [range(1, 11)] *)
Definition range_1_11 : list Z := map Z.of_nat (seq 1 10).

(** How [generate_queries] ends. *)
Inductive generated : Type :=
| Generated (query_dir : string)
| ValueError.

(** The loop of lines 133-147 over the indices [indices], after the files
    [written]: each turn parses the selectivity, which raises [ValueError]
    when it is no number, and writes one file. *)
Fixpoint write_queries (float : string -> option Q)
    (SCRIPT_DIR query_dir selectivity : string) (indices : list Z)
    (written : list (string * string)) : list (string * string) * bool :=
  match indices with
  | [] => (written, true)
  | i :: rest =>
      let query_file := join query_dir [query_name i] in
      match float selectivity with
      | None => (written, false)
      | Some sel_factor =>
          let query := query_text SCRIPT_DIR i in
          write_queries float SCRIPT_DIR query_dir selectivity rest
            (written ++ [(query_file, query)])
      end
  end.

(** [generate_queries(selectivity)]: the files it writes, as pairs of a
    path and a content in the order of writing, and how it ends.  [float]
    is Python's [float] on text; the directory and the files can be
    written. *)
Definition generate_queries (float : string -> option Q)
    (SCRIPT_DIR selectivity : string) : list (string * string) * generated :=
  let query_dir := join SCRIPT_DIR ["queries"] in
  match write_queries float SCRIPT_DIR query_dir selectivity range_1_11 []
  with
  | (written, true) => (written, Generated query_dir)
  | (written, false) => (written, ValueError)
  end.

End Corpus.

(* ================================================================= *)
(** ** The selected metrics of [main] *)

Module Driver.

(** A [dict] from names to numbers, in the order of insertion. *)
Definition dict : Type := list (string * Q).

(** [d.get(key, default)] *)
Fixpoint dict_get (d : dict) (key : string) (default : Q) : Q :=
  match d with
  | [] => default
  | (k, v) :: d' => if (k =? key)%string then v else dict_get d' key default
  end.

(** [d[key] = v] *)
Fixpoint dict_set (d : dict) (key : string) (v : Q) : dict :=
  match d with
  | [] => [(key, v)]
  | (k, x) :: d' =>
      if (k =? key)%string then (k, v) :: d' else (k, x) :: dict_set d' key v
  end.

(** [key in d], with the value. *)
Fixpoint dict_find (d : dict) (key : string) : option Q :=
  match d with
  | [] => None
  | (k, v) :: d' => if (k =? key)%string then Some v else dict_find d' key
  end.

(** [metrics_data], lines 436-442 of [run_host_client], as the dict that
    [main] receives. *)
Definition metrics_data (m : Compute.AggregateSummary) : dict :=
  [("ThroughPut", Compute.ThroughPut m);
   ("execution_time", Compute.execution_time m);
   ("cpu_usage", Compute.cpu_usage m);
   ("total_scanned_rows", inject_Z (Compute.total_scanned_rows m));
   ("total_returned_rows", inject_Z (Compute.total_returned_rows m))].

(** Line 459: the names given with [--metrics], or the default. *)
Definition metrics (given : option (list string)) : list string :=
  match given with
  | Some names => names
  | None => ["ThroughPut"]
  end.

(** Line 496:
    [{metric: metrics_data.get(metric, 0) for metric in metrics}]. *)
Definition final_metrics (names : list string) (data : dict) : dict :=
  fold_left (fun acc metric => dict_set acc metric (dict_get data metric 0))
    names [].

End Driver.

(* ================================================================= *)
(** ** More vocabulary *)

(** The character [c] stands in [s]. *)
Fixpoint has_char (c : ascii) (s : string) : bool :=
  match s with
  | EmptyString => false
  | String d s' => Ascii.eqb c d || has_char c s'
  end.

Module Scenario2.

(** Python's [float] on the few texts of the samples. *)
Definition float (s : string) : option Q :=
  if (s =? "1")%string then Some 1%Q
  else if (s =? "0.5")%string then Some (1 # 2)%Q
  else None.

(** A run over the directory that [generate_queries] has filled. *)
Definition generated : Compute.Host :=
  Sample.host (Done (map Corpus.query_name Corpus.range_1_11))
    (fun _ => Compute.Readable (Corpus.query_text "/opt/selection" 1))
    (Sample.answered [x80; x01]).

End Scenario2.

(* ================================================================= *)
(** * Properties *)

(* ================================================================= *)
(** ** Text *)

Lemma prefix_app (sub s : string) :
  prefix sub s = true <-> exists post, s = sub ++ post.
Proof.
  revert s. induction sub as [|a sub IH]; intros s; simpl.
  - destruct s; simpl; split; eauto.
  - destruct s as [|b s]; simpl.
    + split; [discriminate | intros [post Hpost]; discriminate].
    + destruct (ascii_dec a b) as [->|Hab].
      * rewrite IH. split; intros [post Hpost]; exists post; congruence.
      * split; [discriminate | intros [post Hpost]; congruence].
Qed.

(** Python's [in] on text is the occurrence of a contiguous piece. *)
Lemma str_in_occurs (sub s : string) :
  Text.str_in sub s = true <-> occurs sub s.
Proof.
  unfold occurs. induction s as [|c s IH]; cbn [Text.str_in].
  - rewrite orb_false_r, prefix_app. split.
    + intros [post Hpost]. exists "", post. exact Hpost.
    + intros [[|? ?] [post Hpost]]; [eauto | discriminate].
  - rewrite orb_true_iff, IH, prefix_app. split.
    + intros [[post Hpost] | [pre [post Hpost]]].
      * exists "", post. exact Hpost.
      * exists (String c pre), post. simpl. congruence.
    + intros [[|d pre] [post Hpost]]; simpl in Hpost.
      * left. eauto.
      * right. exists pre, post. congruence.
Qed.

Lemma str_in_absent (sub s : string) :
  Text.str_in sub s = false <-> ~ occurs sub s.
Proof.
  rewrite <- str_in_occurs. destruct (Text.str_in sub s); split; congruence.
Qed.

(** *** Stripping keeps the occurrences of a word *)

Lemma lower_char_space (c : ascii) :
  Text.is_space (Text.lower_char c) = Text.is_space c.
Proof. destruct c as [[] [] [] [] [] [] [] []]; reflexivity. Qed.

Lemma lower_lstrip (s : string) :
  Text.lower (Text.lstrip s) = Text.lstrip (Text.lower s).
Proof.
  induction s as [|c s IH]; cbn [Text.lstrip Text.lower]; [reflexivity|].
  rewrite lower_char_space. now destruct (Text.is_space c).
Qed.

Lemma rstrip_cons (c : ascii) (s : string) :
  Text.rstrip (String c s)
  = if ((Text.rstrip s =? "") && Text.is_space c)%bool then ""
    else String c (Text.rstrip s).
Proof.
  cbn [Text.rstrip]. destruct (Text.rstrip s); [|reflexivity].
  now destruct (Text.is_space c).
Qed.

Lemma lower_rstrip (s : string) :
  Text.lower (Text.rstrip s) = Text.rstrip (Text.lower s).
Proof.
  induction s as [|c s IH]; [reflexivity|].
  cbn [Text.lower]. rewrite !rstrip_cons, <- IH, lower_char_space.
  destruct (Text.rstrip s); cbn [Text.lower String.eqb andb];
    [now destruct (Text.is_space c) | reflexivity].
Qed.

Lemma lower_strip (s : string) :
  Text.lower (Text.strip s) = Text.strip (Text.lower s).
Proof. unfold Text.strip. now rewrite lower_rstrip, lower_lstrip. Qed.

Lemma prefix_space (a c : ascii) (n s : string) :
  Text.is_space a = false -> Text.is_space c = true ->
  prefix (String a n) (String c s) = false.
Proof.
  intros Ha Hc. cbn [prefix]. destruct (ascii_dec a c) as [->|_]; congruence.
Qed.

Lemma str_in_lstrip (n s : string) :
  word n -> Text.str_in n (Text.lstrip s) = Text.str_in n s.
Proof.
  intros Hn. induction s as [|c s IH]; [reflexivity|].
  cbn [Text.lstrip]. destruct (Text.is_space c) eqn:Hc; [|reflexivity].
  rewrite IH. cbn [Text.str_in]. destruct n as [|a n]; [now destruct s|].
  destruct Hn as [Ha _]. now rewrite (prefix_space a c n s Ha Hc).
Qed.

Lemma prefix_rstrip (n s : string) :
  word n -> prefix n (Text.rstrip s) = prefix n s.
Proof.
  revert n. induction s as [|c s IH]; intros n Hn; [reflexivity|].
  rewrite rstrip_cons. destruct n as [|a n]; [now destruct (_ && _)%bool|].
  destruct Hn as [Ha Hn]. specialize (IH n Hn).
  destruct (Text.rstrip s) as [|d r] eqn:Hr; cbn [String.eqb andb].
  - destruct (Text.is_space c) eqn:Hc.
    + now rewrite (prefix_space a c n s Ha Hc).
    + cbn [prefix]. destruct (ascii_dec a c); [exact IH | reflexivity].
  - cbn [prefix] in *. destruct (ascii_dec a c); [exact IH | reflexivity].
Qed.

Lemma str_in_rstrip (n s : string) :
  word n -> Text.str_in n (Text.rstrip s) = Text.str_in n s.
Proof.
  intros Hn. induction s as [|c s IH]; [reflexivity|].
  pose proof (prefix_rstrip n (String c s) Hn) as Hp.
  rewrite rstrip_cons in *. cbn [Text.str_in]. rewrite <- IH, <- Hp.
  destruct (Text.rstrip s) as [|d r]; cbn [String.eqb andb]; [|reflexivity].
  destruct (Text.is_space c); [|reflexivity].
  cbn [Text.str_in]. now destruct (prefix n "").
Qed.

(** A word occurs in the stripped text exactly when it occurs in the
    text, in either case of the letters. *)
Lemma occurs_strip (n text : string) :
  word n ->
  occurs n (Text.lower (Text.strip text)) <-> occurs n (Text.lower text).
Proof.
  intros Hn. rewrite <- !str_in_occurs, lower_strip. unfold Text.strip.
  now rewrite str_in_rstrip, str_in_lstrip.
Qed.

Lemma word_lineitem : word "lineitem".
Proof. repeat split. Qed.

(* ================================================================= *)
(** ** Storage Node *)

Section StorageNode.
Context `{rt : Runtime}.
Import Storage.
Local Open Scope Z_scope.

Variables (c : Connection) (cpu_count : positive) (file : list DpuRow).
Variable scale_factor : Z.

(** The value that lines 227-232 give for the known table. *)
Lemma estimate_lineitem (query : string) :
  occurs "lineitem" (Text.lower query) ->
  let n := estimate_scanned_rows query scale_factor in
  (scale_factor = 1 -> n = 6001215)
  /\ (scale_factor = 10 -> n = 60012150)
  /\ (scale_factor <> 1 -> scale_factor <> 10 ->
      n = 6001215 * scale_factor).
Proof.
  intros Hin. apply str_in_occurs in Hin.
  unfold estimate_scanned_rows. cbv zeta. rewrite Hin.
  destruct (Z.eqb_spec scale_factor 1) as [->|H1].
  - repeat split; intros; congruence.
  - destruct (Z.eqb_spec scale_factor 10) as [->|H10];
      repeat split; intros; congruence.
Qed.

Lemma estimate_other (query : string) :
  ~ occurs "lineitem" (Text.lower query) ->
  estimate_scanned_rows query scale_factor = 0.
Proof.
  intros Hout. apply str_in_absent in Hout.
  unfold estimate_scanned_rows. cbv zeta. now rewrite Hout.
Qed.

(** The state in which the handler leaves once a request has been read
    and the engine, the pickler and the socket have done their part. *)
Lemma handle_client_request (data : list byte) (query : string) :
  recv c = Done data -> data <> [] -> request_text data query ->
  let n := estimate_scanned_rows query scale_factor in
  let qt := (query_end c - query_start c)%Q in
  let wall := (end_wall_time c - start_wall_time c)%Q in
  let busy := (user (cpu_times_end c) - user (cpu_times_start c)
               + (system (cpu_times_end c) - system (cpu_times_start c)))%Q in
  let cpu_usage_pct :=
    if Qpos wall
    then (busy / (wall * inject_Z (Zpos cpu_count)) * 100)%Q else 0%Q in
  let served rows payload :=
    execute c query = Done rows
    /\ pickle_dumps (mk_payload rows n qt) = Some payload
    /\ sendall c payload = Done tt in
  let r := handle_client c cpu_count file scale_factor in
  snd r = Value tt
  /\ (forall payload,
        sent (fst r) = Some payload <-> exists rows, served rows payload)
  /\ (forall row, In row (appended file r) ->
        (exists rows payload, served rows payload
           /\ ScannedRows row = n /\ RowsReturned row = len rows
           /\ ExecutionTime row = qt)
        \/ ((forall rows payload, ~ served rows payload)
            /\ ScannedRows row = 0 /\ RowsReturned row = 0
            /\ ExecutionTime row = 0%Q))
  /\ (csv_open c = Done tt -> exists row, appended file r = [row])
  /\ (forall row, In row (appended file r) ->
        WallClockTime row = wall
        /\ QueryID row = extract_query_id query
        /\ CPUUsage row = cpu_usage_pct).
Proof.
  intros Hrecv Hdata [text [Hdec ->]]. cbv zeta.
  unfold handle_client, try_except_finally, try_except, try_part,
    except_part, finally_part, appended.
  unfold bind, call, call_or, read, set_query_id, set_scanned_rows,
    set_result_data, set_query_time, deliver, writerow, modify, pure,
    return_, raise.
  rewrite Hrecv. destruct data as [|b data]; [congruence|].
  rewrite Hdec. cbn -[estimate_scanned_rows extract_query_id Qminus Qpos].
  set (q := Text.strip text).
  set (n := estimate_scanned_rows q scale_factor).
  destruct (execute c q) as [rows|e] eqn:Hexec;
    cbn -[estimate_scanned_rows extract_query_id Qminus Qpos];
    [ destruct (pickle_dumps _) as [payload|] eqn:Hdump;
      cbn -[estimate_scanned_rows extract_query_id Qminus Qpos];
      [ destruct (sendall c payload) as [[]|e] eqn:Hsend;
        cbn -[estimate_scanned_rows extract_query_id Qminus Qpos] | ] | ];
    destruct (csv_open c) as [[]|e'] eqn:Hopen;
    cbn -[estimate_scanned_rows extract_query_id Qminus Qpos];
    rewrite ?skipn_app, ?skipn_all, ?Nat.sub_diag; cbn [app skipn].
  all: repeat apply conj; try reflexivity.
  all: try (intros row [<-|[]]; cbn [ScannedRows RowsReturned ExecutionTime
              WallClockTime QueryID CPUUsage]).
  all: try (intros row []).
  all: try (repeat split; reflexivity).
  all: try (intros _; eexists; reflexivity).
  all: try (intros [=]).
  all: try (intros p; split;
            [ intros [= <-]; eauto
            | intros (rows0 & Hx & Hd & Hs); inversion Hx; subst;
              congruence ]).
  all: try (left; exists rows, payload; repeat split; assumption).
  all: right; (split; [| repeat split; reflexivity]);
    intros rows0 p0 (Hx & Hd & Hs); inversion Hx; subst; congruence.
Qed.

(** Without a request the locals of the [finally] part are unbound: when
    [recv] raises, when the peer sends nothing, and when the bytes are no
    UTF-8, the handler ends in the [UnboundLocalError] of line 270 and the
    result file is left as it was. *)
Lemma handle_client_no_request :
  (exists e, recv c = Raised e) \/ recv c = Done []
  \/ (exists data, recv c = Done data /\ decode_utf8 data = None) ->
  let r := handle_client c cpu_count file scale_factor in
  snd r = Raising (UnboundLocalError "query_id")
  /\ result_file (fst r) = file /\ sent (fst r) = None.
Proof.
  cbv zeta.
  unfold handle_client, try_except_finally, try_except, try_part,
    except_part, finally_part.
  unfold bind, call, call_or, read, set_query_id, set_scanned_rows,
    set_result_data, set_query_time, modify, pure, return_, raise.
  intros [[e He] | [He | [data [He Hdec]]]]; rewrite He.
  - cbn. auto.
  - cbn. auto.
  - destruct data as [|b data]; [cbn; auto|]. rewrite Hdec. cbn. auto.
Qed.

(** C1: a request whose text contains [lineitem], in any case of the
    letters, is answered with an envelope whose scanned rows are 6001215 at
    scale factor 1, 60012150 at scale factor 10 and 6001215 times the scale
    factor otherwise, whatever rows the engine returns; and it is answered
    exactly when the engine, the pickler and the socket do their part. *)
Theorem lineitem_response_scanned_rows (data : list byte) (text : string) :
  recv c = Done data -> data <> [] -> decode_utf8 data = Some text ->
  occurs "lineitem" (Text.lower text) ->
  exists n,
    ((scale_factor = 1 -> n = 6001215)
     /\ (scale_factor = 10 -> n = 60012150)
     /\ (scale_factor <> 1 -> scale_factor <> 10 ->
         n = 6001215 * scale_factor))
    /\ forall payload,
         sent (fst (handle_client c cpu_count file scale_factor))
           = Some payload
         <-> exists rows,
               execute c (Text.strip text) = Done rows
               /\ pickle_dumps
                    (mk_payload rows n (query_end c - query_start c))
                  = Some payload
               /\ sendall c payload = Done tt.
Proof.
  intros Hrecv Hdata Hdec Hin.
  apply (occurs_strip _ _ word_lineitem) in Hin.
  assert (request_text data (Text.strip text)) as Hreq by (exists text; auto).
  exists (estimate_scanned_rows (Text.strip text) scale_factor). split.
  - exact (estimate_lineitem _ Hin).
  - exact (proj1 (proj2 (handle_client_request data _ Hrecv Hdata Hreq))).
Qed.

(** C9: a request whose text does not contain [lineitem] is answered, when
    it is answered, with an envelope whose scanned rows are 0, and the row
    it adds to the CSV log has 0 scanned rows, at every scale factor and
    whatever rows the engine returns. *)
Theorem other_request_scanned_rows (data : list byte) (text : string) :
  recv c = Done data -> data <> [] -> decode_utf8 data = Some text ->
  ~ occurs "lineitem" (Text.lower text) ->
  let r := handle_client c cpu_count file scale_factor in
  (forall payload,
     sent (fst r) = Some payload
     <-> exists rows,
           execute c (Text.strip text) = Done rows
           /\ pickle_dumps (mk_payload rows 0 (query_end c - query_start c))
              = Some payload
           /\ sendall c payload = Done tt)
  /\ (forall row, In row (appended file r) -> ScannedRows row = 0)
  /\ (csv_open c = Done tt -> exists row, appended file r = [row]).
Proof.
  intros Hrecv Hdata Hdec Hout.
  rewrite <- (occurs_strip _ _ word_lineitem) in Hout.
  assert (request_text data (Text.strip text)) as Hreq by (exists text; auto).
  pose proof (handle_client_request data _ Hrecv Hdata Hreq) as H.
  cbv zeta in H. rewrite (estimate_other _ Hout) in H.
  destruct H as (_ & Hsent & Hrows & Hone & _).
  cbv zeta. repeat split.
  - apply Hsent.
  - apply Hsent.
  - intros row Hrow.
    destruct (Hrows row Hrow) as [(? & ? & _ & H0 & _) | (_ & H0 & _)];
      exact H0.
  - exact Hone.
Qed.

(** X5: when the engine, the pickler or the socket fails on a request, the
    handler comes back and the row it logs carries zero execution time,
    zero rows and zero scanned rows. *)
Lemma handle_client_failure_record (data : list byte) (query : string) :
  recv c = Done data -> data <> [] -> request_text data query ->
  (forall rows payload,
     execute c query = Done rows ->
     pickle_dumps (mk_payload rows (estimate_scanned_rows query scale_factor)
                     (query_end c - query_start c)) = Some payload ->
     sendall c payload <> Done tt) ->
  csv_open c = Done tt ->
  let r := handle_client c cpu_count file scale_factor in
  completed r = true
  /\ exists row, appended file r = [row]
       /\ ExecutionTime row = 0%Q /\ RowsReturned row = 0
       /\ ScannedRows row = 0.
Proof.
  intros Hrecv Hdata Hreq Hfail Hopen.
  pose proof (handle_client_request data query Hrecv Hdata Hreq) as H.
  cbv zeta in H. destruct H as (Hret & _ & Hrows & Hone & _).
  cbv zeta. split.
  - unfold completed. now rewrite Hret.
  - destruct (Hone Hopen) as [row Hrow]. exists row. split; [exact Hrow|].
    assert (In row (appended file (handle_client c cpu_count file scale_factor)))
      as Hin by (rewrite Hrow; now left).
    destruct (Hrows row Hin)
      as [(rows & payload & (He & Hd & Hs) & _) | (_ & Hs & Hr & Ht)].
    + exfalso. exact (Hfail rows payload He Hd Hs).
    + auto.
Qed.

(** A handler adds a row only when it has read a request. *)
Lemma appended_request (row : DpuRow) :
  In row (appended file (handle_client c cpu_count file scale_factor)) ->
  exists data query,
    recv c = Done data /\ data <> [] /\ request_text data query.
Proof.
  intros Hrow.
  assert (result_file (fst (handle_client c cpu_count file scale_factor))
            = file -> False) as Hno.
  { intros Heq. unfold appended in Hrow. rewrite Heq, skipn_all in Hrow.
    exact Hrow. }
  destruct (recv c) as [[|b data]|e] eqn:Hrecv.
  - exfalso. apply Hno, handle_client_no_request. tauto.
  - destruct (decode_utf8 (b :: data)) as [text|] eqn:Hdec.
    + exists (b :: data), (Text.strip text).
      repeat split; [discriminate | exists text; auto].
    + exfalso. apply Hno, handle_client_no_request. eauto.
  - exfalso. apply Hno, handle_client_no_request. eauto.
Qed.

(** X6: the bounds of a logged row: a clock that does not run backwards gives
    a non-negative execution time, and CPU-time deltas that are
    non-negative and at most the CPU count times the window give a CPU
    usage between 0 and 100 times the CPU count. *)
Lemma logged_row_bounds (row : DpuRow) :
  In row (appended file (handle_client c cpu_count file scale_factor)) ->
  (query_start c <= query_end c)%Q ->
  let busy := (user (cpu_times_end c) - user (cpu_times_start c)
               + (system (cpu_times_end c) - system (cpu_times_start c)))%Q in
  let cpus := inject_Z (Zpos cpu_count) in
  (0 <= busy)%Q ->
  (busy <= cpus * (end_wall_time c - start_wall_time c))%Q ->
  (0 <= ExecutionTime row)%Q
  /\ (0 <= CPUUsage row)%Q /\ (CPUUsage row <= 100 * cpus)%Q.
Proof.
  intros Hrow Hclock busy cpus Hbusy Hcap.
  destruct (appended_request row Hrow)
    as (data & query & Hrecv & Hdata & Hreq).
  pose proof (handle_client_request data query Hrecv Hdata Hreq) as H.
  cbv zeta in H. destruct H as (_ & _ & Hrows & _ & Hshape).
  destruct (Hshape row Hrow) as (_ & _ & Hcpu).
  assert (1 <= cpus)%Q as Hcpus.
  { unfold cpus, Qle. simpl. lia. }
  split.
  - destruct (Hrows row Hrow) as [(? & ? & _ & _ & _ & ->) | (_ & _ & _ & ->)];
      lra.
  - rewrite Hcpu. fold busy. fold cpus. unfold Qpos.
    destruct (Qlt_le_dec 0 (end_wall_time c - start_wall_time c))
      as [Hwall|Hwall]; [|lra].
    set (wall := (end_wall_time c - start_wall_time c)%Q) in *.
    assert (0 < wall * cpus)%Q as Hd by nra.
    assert (0 <= busy / (wall * cpus))%Q as Hlo
      by (apply Qle_shift_div_l; [exact Hd | lra]).
    assert (busy / (wall * cpus) <= 1)%Q as Hhi
      by (apply Qle_shift_div_r; [exact Hd | lra]).
    split; lra.
Qed.

End StorageNode.

Lemma lineitem_response_scanned_rows_witness :
  exists n,
    ((1 = 1 -> n = 6001215)
     /\ (1 = 10 -> n = 60012150)
     /\ (1 <> 1 -> 1 <> 10 -> n = 6001215 * 1))%Z
    /\ forall payload,
         Storage.sent
           (fst (Storage.handle_client (rt:=Sample.runtime)
                   (Sample.served Sample.query6) 4 [] 1))
           = Some payload
         <-> exists rows,
               Storage.execute (Sample.served Sample.query6)
                 (Text.strip Sample.query6) = Done rows
               /\ pickle_dumps (Runtime:=Sample.runtime)
                    (mk_payload rows n (12 - 11))
                  = Some payload
               /\ Storage.sendall (Sample.served Sample.query6) payload
                  = Done tt.
Proof.
  apply (lineitem_response_scanned_rows (rt:=Sample.runtime)
           (Sample.served Sample.query6) 4 [] 1
           (list_byte_of_string Sample.query6) Sample.query6).
  - reflexivity.
  - discriminate.
  - reflexivity.
  - apply str_in_occurs. reflexivity.
Defined.

Lemma other_request_scanned_rows_witness :
  let r := Storage.handle_client (rt:=Sample.runtime)
             (Sample.served " SELECT 42 ") 4 [] 10 in
  (forall payload,
     Storage.sent (fst r) = Some payload
     <-> exists rows,
           Storage.execute (Sample.served " SELECT 42 ")
             (Text.strip " SELECT 42 ") = Done rows
           /\ pickle_dumps (Runtime:=Sample.runtime)
                (mk_payload rows 0 (12 - 11)) = Some payload
           /\ Storage.sendall (Sample.served " SELECT 42 ") payload = Done tt)
  /\ (forall row, In row (Storage.appended [] r) ->
        Storage.ScannedRows row = 0%Z)
  /\ (Storage.csv_open (Sample.served " SELECT 42 ") = Done tt ->
      exists row, Storage.appended [] r = [row]).
Proof.
  apply (other_request_scanned_rows (rt:=Sample.runtime)
           (Sample.served " SELECT 42 ") 4 [] 10
           (list_byte_of_string " SELECT 42 ") " SELECT 42 ").
  - reflexivity.
  - discriminate.
  - reflexivity.
  - apply str_in_absent. reflexivity.
Defined.

(** C2, at a connection on which [recv] raises: the [except] part runs, the
    [finally] part raises [UnboundLocalError] for [query_id], the handler
    does not come back and no row is added to the CSV log. *)
Theorem recv_error_is_not_logged :
  let r := Storage.handle_client (rt:=Sample.runtime) Sample.reset 4 [] 1 in
  Storage.locals (fst r)
    = Storage.mk_locals None (Some 0%Q) (Some []) (Some 0%Z)
  /\ snd r = Raising (UnboundLocalError "query_id")
  /\ Storage.completed r = false
  /\ Storage.appended [] r = [].
Proof. repeat split. Qed.

(** C5, at a connection on which the peer sends nothing: the handler
    returns early with its locals unbound, the [finally] part raises
    [UnboundLocalError] for [query_id], and no row is added to the CSV
    log. *)
Theorem silent_peer_is_not_logged :
  let r := Storage.handle_client (rt:=Sample.runtime) Sample.silent 4 [] 1 in
  Storage.locals (fst r) = Storage.unbound
  /\ snd r = Raising (UnboundLocalError "query_id")
  /\ Storage.appended [] r = [].
Proof. repeat split. Qed.

(** Bytes that are no UTF-8 end in the same way. *)
Example garbled_request_is_not_logged :
  let r := Storage.handle_client (rt:=Sample.runtime) Sample.garbled 4 [] 1 in
  snd r = Raising (UnboundLocalError "query_id")
  /\ Storage.appended [] r = [].
Proof. repeat split. Qed.

(* ================================================================= *)
(** ** Sorting the names *)

Lemma name_le_total (a b : string) : name_le a b \/ name_le b a.
Proof. apply String.leb_total. Qed.

Lemma name_le_trans (a b c : string) :
  name_le a b -> name_le b c -> name_le a c.
Proof.
  unfold name_le, String.leb. revert b c.
  induction a as [|x a IH]; intros [|y b] [|z c]; simpl; try congruence.
  unfold Ascii.compare.
  destruct (N.compare_spec (N_of_ascii x) (N_of_ascii y)),
    (N.compare_spec (N_of_ascii y) (N_of_ascii z)),
    (N.compare_spec (N_of_ascii x) (N_of_ascii z));
    try congruence; try lia; apply IH.
Qed.

Lemma insert_perm (x : string) (l : list string) :
  Permutation (x :: l) (Compute.insert x l).
Proof.
  induction l as [|y l IH]; simpl.
  - reflexivity.
  - destruct (x <=? y)%string.
    + reflexivity.
    + rewrite perm_swap. now constructor.
Qed.

Lemma sort_perm (l : list string) : Permutation l (Compute.sort l).
Proof.
  induction l as [|x l IH]; simpl.
  - constructor.
  - rewrite <- insert_perm. now constructor.
Qed.

Lemma insert_sorted (x : string) (l : list string) :
  StronglySorted name_le l -> StronglySorted name_le (Compute.insert x l).
Proof.
  induction 1 as [|y l Hl IH Hy]; simpl.
  - repeat constructor.
  - destruct (x <=? y)%string eqn:Hxy.
    + constructor; [now constructor|].
      constructor; [exact Hxy|].
      eapply Forall_impl; [|exact Hy].
      intros z Hz. exact (name_le_trans x y z Hxy Hz).
    + constructor; [exact IH|].
      rewrite <- insert_perm. constructor; [|exact Hy].
      destruct (name_le_total x y) as [H|H]; [|exact H].
      unfold name_le in H. congruence.
Qed.

Lemma sort_sorted (l : list string) : StronglySorted name_le (Compute.sort l).
Proof.
  induction l as [|x l IH]; simpl.
  - constructor.
  - now apply insert_sorted.
Qed.

Lemma filter_sorted (f : string -> bool) (l : list string) :
  StronglySorted name_le l -> StronglySorted name_le (filter f l).
Proof.
  induction 1 as [|x l Hl IH Hx]; simpl.
  - constructor.
  - destruct (f x); [|exact IH].
    constructor; [exact IH|].
    apply Forall_forall. intros y Hy. apply filter_In in Hy.
    rewrite Forall_forall in Hx. now apply Hx.
Qed.

(* ================================================================= *)
(** ** Compute Node *)

Section ComputeNode.
Context `{rt : Runtime}.
Import Compute.
Local Open Scope Z_scope.

Variable w : Host.

(** *** One round trip *)

Lemma send_query_ends (x : Exchange) (query : string)
    (reply : held (list row) * held Z * Q * Z * held Q) :
  send_query_and_get_result x query = Some reply -> ends x query = true.
Proof.
  unfold send_query_and_get_result.
  destruct (ends x query); [reflexivity | discriminate].
Qed.

Lemma send_query_unreachable (x : Exchange) (query : string) (e : exn) :
  ends x query = true ->
  transport x query = Raised e ->
  send_query_and_get_result x query
  = Some (Expected [], Expected 0, 0%Q, 0, Expected 0%Q).
Proof. unfold send_query_and_get_result. now intros -> ->. Qed.


Lemma get_default_expected {A : Type} (v : option (held A)) (d : A) :
  expected v -> exists a, get_default v (Expected d) = Expected a.
Proof.
  intros Hv. destruct v as [[a|e]|]; cbn; eauto. now destruct (Hv e).
Qed.

(** An orderly round trip gives the loop values that it can work on. *)
Lemma send_query_orderly (x : Exchange) (query : string) :
  orderly x query ->
  exists result_rows scanned_rows data_time data_size server_query_time,
    send_query_and_get_result x query
    = Some (Expected result_rows, Expected scanned_rows, data_time,
            data_size, Expected server_query_time).
Proof.
  intros [Hends Hkind]. unfold send_query_and_get_result. rewrite Hends.
  destruct (transport x query) as [data|e];
    [|do 5 eexists; reflexivity].
  destruct (pickle_loads data) as [[rows scanned qt|]|] eqn:Hload;
    [|do 5 eexists; reflexivity..].
  destruct (Hkind data rows scanned qt eq_refl Hload) as (Hr & Hs & Hq).
  destruct (get_default_expected rows [] Hr) as [a ->].
  destruct (get_default_expected scanned 0 Hs) as [b ->].
  destruct (get_default_expected qt 0%Q Hq) as [c ->].
  do 5 eexists; reflexivity.
Qed.

(** *** One iteration *)

(** On values of the expected types the body of the loop writes its row
    and goes on. *)
Lemma iteration_logs (qf text : string) (s : State)
    (result_rows : list row) (scanned_rows : Z) (data_time : Q)
    (data_size : Z) (server_query_time : Q) :
  file w qf = Readable text ->
  let x := exchange w (executed_count s) in
  let wall := (single_query_wall_end x - single_query_wall_start x)%Q in
  send_query_and_get_result x (Text.strip text)
  = Some (Expected result_rows, Expected scanned_rows, data_time, data_size,
          Expected server_query_time) ->
  iteration w qf s
  = (advance s
       (mk_host_row qf (len result_rows) scanned_rows data_time data_size
          server_query_time
          (utilisation (single_query_cpu_start x) (single_query_cpu_end x)
             wall (num_cpus w))
          (rate scanned_rows wall)),
     Value tt).
Proof.
  intros Hfile x wall Hsend. unfold iteration. rewrite Hfile.
  unfold bind at 1. unfold get. unfold bind at 1. fold x. rewrite Hsend.
  unfold wait, pure. fold wall. unfold rate.
  destruct (Qpos wall); reflexivity.
Qed.

(** A round trip that does not end blocks the loop. *)
Lemma endless_round_trip_blocks (qf text : string) (s : State) :
  file w qf = Readable text ->
  ends (exchange w (executed_count s)) (Text.strip text) = false ->
  iteration w qf s = (s, Blocked).
Proof.
  intros Hfile Hends. unfold iteration. rewrite Hfile.
  unfold bind at 1. unfold get. unfold bind at 1.
  unfold send_query_and_get_result. rewrite Hends. reflexivity.
Qed.

(** A response that holds a value of another type under one of its keys
    makes the body of the loop raise before it has written anything. *)
Lemma other_value_raises (qf text : string) (s : State)
    (result_rows : held (list row)) (scanned_rows : held Z)
    (data_time : Q) (data_size : Z) (server_query_time : held Q) :
  file w qf = Readable text ->
  send_query_and_get_result (exchange w (executed_count s)) (Text.strip text)
  = Some (result_rows, scanned_rows, data_time, data_size,
          server_query_time) ->
  (exists e, result_rows = Other e \/ scanned_rows = Other e
             \/ server_query_time = Other e) ->
  exists e, iteration w qf s = (s, Raising e).
Proof.
  intros Hfile Hsend Hother. unfold iteration. rewrite Hfile.
  unfold bind at 1. unfold get. unfold bind at 1. rewrite Hsend.
  unfold wait, pure.
  destruct result_rows as [rows|e1], scanned_rows as [scanned|e2],
    server_query_time as [qt|e3];
    try (destruct Hother as [e [H|[H|H]]]; discriminate H);
    destruct (Qpos _); cbn; eauto.
Qed.

(** What an iteration can do: leave the state as it is, or write the row
    of its round trip. *)
Lemma iteration_outcomes (qf : string) (s : State) :
  (exists r, iteration w qf s = (s, r))
  \/ exists text result_rows scanned_rows data_time data_size
            server_query_time,
       file w qf = Readable text
       /\ let x := exchange w (executed_count s) in
          let wall :=
            (single_query_wall_end x - single_query_wall_start x)%Q in
          send_query_and_get_result x (Text.strip text)
          = Some (Expected result_rows, Expected scanned_rows, data_time,
                  data_size, Expected server_query_time)
          /\ iteration w qf s
             = (advance s
                  (mk_host_row qf (len result_rows) scanned_rows data_time
                     data_size server_query_time
                     (utilisation (single_query_cpu_start x)
                        (single_query_cpu_end x) wall (num_cpus w))
                     (rate scanned_rows wall)),
                Value tt).
Proof.
  destruct (file w qf) as [|e|text] eqn:Hfile.
  - left. unfold iteration. rewrite Hfile. eexists. reflexivity.
  - left. unfold iteration. rewrite Hfile. eexists. reflexivity.
  - destruct (send_query_and_get_result (exchange w (executed_count s))
                (Text.strip text))
      as [[[[[result_rows scanned_rows] data_time] data_size]
            server_query_time]|] eqn:Hsend.
    + destruct result_rows as [rows|e1] eqn:Hr;
        [destruct scanned_rows as [scanned|e2] eqn:Hs;
         [destruct server_query_time as [qt|e3] eqn:Hq|]|].
      * right. exists text, rows, scanned, data_time, data_size, qt.
        split; [reflexivity|]. cbv zeta. split; [exact Hsend|].
        exact (iteration_logs qf text s rows scanned data_time data_size qt
                 Hfile Hsend).
      * left.
        destruct (other_value_raises qf text s _ _ _ _ _ Hfile Hsend)
          as [e He]; [exists e3; auto|]. eauto.
      * left.
        destruct (other_value_raises qf text s _ _ _ _ _ Hfile Hsend)
          as [e He]; [exists e2; auto|]. eauto.
      * left.
        destruct (other_value_raises qf text s _ _ _ _ _ Hfile Hsend)
          as [e He]; [exists e1; auto|]. eauto.
    + left. exists Blocked. apply (endless_round_trip_blocks qf text s Hfile).
      unfold send_query_and_get_result in Hsend.
      destruct (ends _ _); [discriminate Hsend | reflexivity].
Qed.

(** *** The loop *)

Lemma total_app (l : list Z) (z : Z) : total (l ++ [z]) = total l + z.
Proof. induction l as [|y l IH]; simpl; lia. Qed.

Lemma consistent_initial : consistent w initial.
Proof.
  repeat split. intros [|i] row; discriminate.
Qed.

Lemma iteration_consistent (qf : string) (s : State) :
  consistent w s -> consistent w (fst (iteration w qf s)).
Proof.
  intros Hs.
  destruct (iteration_outcomes qf s)
    as [[r ->] | (text & result_rows & scanned & data_time & data_size
                  & server_time & Hfile & Hsend & ->)];
    [exact Hs|].
  cbv zeta in Hsend. destruct Hs as (Hcount & Hscan & Hret & Hrows).
  cbn [fst]. unfold consistent, advance.
  cbn [executed_count total_scanned total_rows_returned result_file
       ScannedRows ReturnedRows].
  rewrite !map_app. cbn [map ScannedRows ReturnedRows].
  rewrite !total_app.
  repeat split.
  - unfold len in *. rewrite length_app. simpl. lia.
  - lia.
  - lia.
  - intros i row Hi.
    destruct (Nat.lt_ge_cases i (List.length (result_file s))) as [Hlt|Hge].
    + rewrite nth_error_app1 in Hi by exact Hlt. now apply Hrows.
    + rewrite nth_error_app2 in Hi by exact Hge.
      destruct (i - List.length (result_file s))%nat as [|k] eqn:Hk;
        [|destruct k; discriminate].
      injection Hi as <-.
      assert (Z.of_nat i = executed_count s) as Hidx
        by (unfold len in Hcount; lia).
      exists (Text.strip text), result_rows, scanned, data_time, data_size,
        server_time.
      unfold query_of, round_trip. cbn [QueryFile].
      rewrite Hfile, Hidx. repeat split. exact Hsend.
Qed.

Lemma for_each_consistent (files : list string) (s : State) :
  consistent w s -> consistent w (fst (for_each files (iteration w) s)).
Proof.
  revert s. induction files as [|qf files IH]; intros s Hs.
  - exact Hs.
  - cbn [for_each]. unfold bind.
    pose proof (iteration_consistent qf s Hs) as H1.
    destruct (iteration w qf s) as [s1 [[]| |e|]]; cbn [fst] in *.
    + now apply IH.
    + exact H1.
    + exact H1.
    + exact H1.
Qed.

(** The state at the end of a run, apart from the saved summary, is the
    state in which the loop has left it. *)
Lemma run_consistent : consistent w (fst (run_host_client w)).
Proof.
  unfold run_host_client, bind, call.
  destruct (listdir w) as [names|e].
  - cbn [pure].
    pose proof (for_each_consistent (sort (filter matching names)) initial
                  consistent_initial) as H.
    destruct (for_each _ _ initial) as [s1 [[]| |e|]]; exact H.
  - exact consistent_initial.
Qed.

(** Over files that can be read and whose round trips are orderly the loop
    comes to its end, with a row for each file that passes the existence
    check. *)
Lemma for_each_orderly (files : list string) (s : State) :
  (forall f, In f files -> readable w f) ->
  (forall f, In f files -> orderly_for w f) ->
  exists s',
    for_each files (iteration w) s = (s', Value tt)
    /\ map QueryFile (result_file s')
       = (map QueryFile (result_file s) ++ filter (present w) files)%list
    /\ metrics_file s' = metrics_file s.
Proof.
  revert s. induction files as [|qf files IH]; intros s Hread Hord.
  - exists s. cbn. rewrite app_nil_r. auto.
  - assert (forall f, In f files -> readable w f) as Hrest
      by (intros f Hf; apply Hread; now right).
    assert (forall f, In f files -> orderly_for w f) as Hrest'
      by (intros f Hf; apply Hord; now right).
    pose proof (Hread qf (or_introl eq_refl)) as Hqf.
    pose proof (Hord qf (or_introl eq_refl)) as Hqf'.
    cbn [for_each filter]. unfold bind at 1. unfold present.
    destruct (file w qf) as [|e|text] eqn:Hfile.
    + unfold iteration. rewrite Hfile. cbn [pure]. exact (IH s Hrest Hrest').
    + exfalso. exact (Hqf e Hfile).
    + destruct (send_query_orderly (exchange w (executed_count s))
                  (Text.strip text))
        as (rows & scanned & data_time & data_size & server_time & Hsend).
      { apply Hqf'. unfold query_of. now rewrite Hfile. }
      rewrite (iteration_logs qf text s _ _ _ _ _ Hfile Hsend).
      match goal with
      | |- context [advance s ?row] =>
          destruct (IH (advance s row) Hrest Hrest')
            as (s' & Hrun & Hnames & Hmetrics)
      end.
      exists s'. split; [exact Hrun|]. split; [|exact Hmetrics].
      rewrite Hnames. cbn [advance result_file]. unfold advance.
      cbn [result_file]. rewrite map_app, <- app_assoc.
      reflexivity.
Qed.

(** The summary of a run that returns: the last lines of
    [run_host_client], on the totals that the loop has left. *)
Lemma run_summary (m : AggregateSummary) :
  snd (run_host_client w) = Value m ->
  let s := fst (run_host_client w) in
  let wall := (overall_end w - overall_start w)%Q in
  m = mk_summary (rate (total_scanned s) wall) wall
        (utilisation (cpu_times_start w) (cpu_times_end w) wall (num_cpus w))
        (total_scanned s) (total_rows_returned s)
  /\ metrics_file s = Some m.
Proof.
  unfold run_host_client, bind, call.
  destruct (listdir w) as [names|e]; [|discriminate].
  cbn [pure].
  destruct (for_each _ _ initial) as [s1 [[]| |e|]]; try discriminate.
  unfold summarise, bind, get, modify, pure. cbn.
  intros [= <-]. split; reflexivity.
Qed.

(** A run whose directory is listed, whose files can be read and whose
    round trips are orderly returns, with the rows of the files that pass
    the existence check, in the order of the sorted names. *)
Lemma run_returns (names : list string) :
  listdir w = Done names ->
  (forall f, In f names -> matching f = true -> readable w f) ->
  (forall f, In f names -> matching f = true -> orderly_for w f) ->
  (exists m, snd (run_host_client w) = Value m)
  /\ map QueryFile (result_file (fst (run_host_client w)))
     = filter (present w) (sort (filter matching names)).
Proof.
  intros Hlist Hread Hord.
  assert (forall f, In f (sort (filter matching names)) ->
                    In f names /\ matching f = true) as Hin.
  { intros f Hf. apply (Permutation_in _ (Permutation_sym (sort_perm _))) in Hf.
    now apply filter_In in Hf. }
  destruct (for_each_orderly (sort (filter matching names)) initial)
    as (s' & Hrun & Hnames & _).
  { intros f Hf. now apply Hread; apply Hin. }
  { intros f Hf. now apply Hord; apply Hin. }
  unfold run_host_client, bind, call. rewrite Hlist. cbn [pure].
  rewrite Hrun. unfold summarise, bind, get, modify, pure. cbn [fst snd].
  split; [eauto|]. exact Hnames.
Qed.

Lemma filter_perm (f : string -> bool) (l l' : list string) :
  Permutation l l' -> Permutation (filter f l) (filter f l').
Proof.
  induction 1 as [|x l l' _ IH|x y l|l l' l'' _ IH1 _ IH2]; simpl.
  - constructor.
  - destruct (f x); [now constructor | exact IH].
  - destruct (f x), (f y); try reflexivity. apply perm_swap.
  - now transitivity (filter f l').
Qed.

Lemma filter_both (f g : string -> bool) (l : list string) :
  filter g (filter f l) = filter (fun x => f x && g x) l.
Proof.
  induction l as [|x l IH]; simpl; [reflexivity|].
  destruct (f x); simpl; [destruct (g x)|]; now rewrite IH.
Qed.


(** *** The claims on the Compute Node *)

(** C3, as the code has it: the run takes the names that start with
    [query6_] and end with [.sql] in sorted order and skips a name that
    fails the existence check of line 359.  When each remaining file can be
    read and the round trip for its query is orderly (it comes to an end,
    and a response that loads into a dict holds values of the types that
    the Storage Node sends), the run returns after appending one row for
    each of them; so the rows are as many as the matching files that exist,
    also when round trips fail or bring bytes that do not load. *)
Theorem run_logs_present_files (names : list string) :
  listdir w = Done names ->
  (forall f, In f names -> matching f = true -> readable w f) ->
  (forall f, In f names -> matching f = true -> orderly_for w f) ->
  let r := run_host_client w in
  let processed := map QueryFile (result_file (fst r)) in
  (exists m, snd r = Value m)
  /\ processed = filter (present w) (sort (filter matching names))
  /\ StronglySorted name_le processed
  /\ Permutation processed
       (filter (fun f => matching f && present w f) names)
  /\ List.length (result_file (fst r))
     = List.length (filter (fun f => matching f && present w f) names)
  /\ ((forall f, In f names -> matching f = true -> present w f = true) ->
      List.length (result_file (fst r))
      = List.length (filter matching names)).
Proof.
  intros Hlist Hread Hord. cbv zeta.
  destruct (run_returns names Hlist Hread Hord) as (Hret & Hnames).
  assert (Permutation (map QueryFile (result_file (fst (run_host_client w))))
            (filter (fun f => matching f && present w f) names)) as Hperm.
  { rewrite Hnames, <- filter_both.
    apply filter_perm, Permutation_sym, sort_perm. }
  split; [exact Hret|]. split; [exact Hnames|]. split; [|split; [exact Hperm|]].
  - rewrite Hnames. apply filter_sorted, sort_sorted.
  - assert (List.length (result_file (fst (run_host_client w)))
            = List.length (filter (fun f => matching f && present w f) names))
      as Hlen
      by (rewrite <- (Permutation_length Hperm); now rewrite length_map).
    split; [exact Hlen|].
    intros Hall. rewrite Hlen. f_equal. apply filter_ext_in.
    intros f Hf. destruct (matching f) eqn:Hm; [|reflexivity].
    now rewrite (Hall f Hf Hm).
Qed.

(** C4: when the Storage Node cannot be reached for a query, or the
    transport fails before the response is read to its end, the row of
    that query has 0 returned rows, 0 scanned rows and a server time of 0.
    No exception leaves the iteration of such a query: in whatever state
    the loop is, the body ends normally after appending that one row, and
    the loop goes on with the files that remain. *)
Theorem unreachable_server_record :
  let r := run_host_client w in
  (forall i row query e,
     nth_error (result_file (fst r)) i = Some row ->
     query_of w (QueryFile row) = Some query ->
     transport (exchange w (Z.of_nat i)) query = Raised e ->
     ReturnedRows row = 0 /\ ScannedRows row = 0
     /\ ServerQueryTime row = 0%Q)
  /\ (forall qf text s e,
        file w qf = Readable text ->
        let x := exchange w (executed_count s) in
        ends x (Text.strip text) = true ->
        transport x (Text.strip text) = Raised e ->
        exists s' row,
          iteration w qf s = (s', Value tt)
          /\ result_file s' = (result_file s ++ [row])%list
          /\ QueryFile row = qf
          /\ ReturnedRows row = 0 /\ ScannedRows row = 0
          /\ ServerQueryTime row = 0%Q
          /\ forall rest,
               for_each (qf :: rest) (iteration w) s
               = for_each rest (iteration w) s').
Proof.
  cbv zeta. split.
  - intros i row query e Hrow Hquery Hfail.
    destruct run_consistent as (_ & _ & _ & Hlogged).
    destruct (Hlogged i row Hrow)
      as (query' & rows & scanned & data_time & data_size & server_time
          & Hquery' & Hsend & Hshape).
    assert (query' = query) as -> by congruence.
    rewrite (send_query_unreachable _ _ e (send_query_ends _ _ _ Hsend) Hfail)
      in Hsend.
    injection Hsend as <- <- <- <- <-.
    rewrite Hshape. cbn. auto.
  - intros qf text s e Hfile Hends Hfail.
    pose proof (iteration_logs qf text s _ _ _ _ _ Hfile
                  (send_query_unreachable _ _ e Hends Hfail)) as Hiter.
    cbv zeta in Hiter.
    eexists. eexists. split; [exact Hiter|].
    split; [reflexivity|]. split; [reflexivity|].
    split; [reflexivity|]. split; [reflexivity|]. split; [reflexivity|].
    intros rest. cbn [for_each]. unfold bind. now rewrite Hiter.
Qed.



(** C6, as the code has it: when no name of the directory matches, the run
    writes no row under the header and returns a summary whose throughput,
    scanned rows and returned rows are 0; its execution time is the
    measured wall time of the run and its CPU usage the utilisation
    measured over that time. *)
Theorem no_matching_file_summary (names : list string) :
  listdir w = Done names ->
  (forall f, In f names -> matching f = false) ->
  let r := run_host_client w in
  let wall := (overall_end w - overall_start w)%Q in
  result_file (fst r) = []
  /\ exists m,
       snd r = Value m /\ metrics_file (fst r) = Some m
       /\ ThroughPut m = 0%Q
       /\ total_scanned_rows m = 0 /\ total_returned_rows m = 0
       /\ execution_time m = wall
       /\ cpu_usage m
          = utilisation (cpu_times_start w) (cpu_times_end w) wall
              (num_cpus w).
Proof.
  intros Hlist Hnone. cbv zeta.
  assert (filter matching names = []) as Hempty.
  { clear Hlist. induction names as [|f l IH]; [reflexivity|]. simpl.
    rewrite (Hnone f (or_introl eq_refl)).
    apply IH. intros g Hg. apply Hnone. now right. }
  clear Hnone.
  unfold run_host_client, bind, call. rewrite Hlist. cbn [pure].
  rewrite Hempty. cbn [sort for_each pure].
  unfold summarise, bind, get, modify, pure.
  cbn [fst snd result_file metrics_file initial total_scanned
       total_rows_returned].
  split; [reflexivity|]. eexists. split; [reflexivity|].
  cbn [ThroughPut total_scanned_rows total_returned_rows execution_time
       cpu_usage].
  repeat split. unfold rate. now rewrite andb_false_r.
Qed.

(** C7, as the code has it: when the query directory is missing,
    [os.listdir] raises and the run passes the exception on to its caller;
    the CSV log holds its header only and no summary is saved or
    returned. *)
Theorem missing_directory_raises (e : exn) :
  listdir w = Raised e ->
  let r := run_host_client w in
  snd r = Raising e
  /\ result_file (fst r) = [] /\ metrics_file (fst r) = None.
Proof.
  intros Hlist. cbv zeta.
  unfold run_host_client, bind, call. rewrite Hlist. repeat split.
Qed.

End ComputeNode.

(** *** The claims at sample runs *)

Lemma all_readable (w : Compute.Host) (names : list string) :
  forallb (fun f => match Compute.file w f with
                    | Compute.Unreadable _ => false
                    | _ => true
                    end) names = true ->
  forall f, In f names -> Compute.matching f = true -> readable w f.
Proof.
  intros Hall f Hf _ e He. rewrite forallb_forall in Hall.
  specialize (Hall f Hf). now rewrite He in Hall.
Qed.

(** The answered round trip of the samples is orderly for a query that is
    not empty. *)
Lemma answered_orderly (query : string) :
  query <> "" ->
  orderly (rt:=Sample.runtime) (Sample.answered [x80; x01]) query.
Proof.
  intros Hquery. split.
  - cbn. apply negb_true_iff, String.eqb_neq. exact Hquery.
  - intros data rows scanned qt Hdata Hload. cbn in Hdata.
    injection Hdata as <-. cbn in Hload. injection Hload as <- <- <-.
    repeat split; intros e He; discriminate He.
Qed.

Lemma query6_not_empty : Text.strip Sample.query6 <> "".
Proof. intros H. vm_compute in H. discriminate H. Qed.

(** When every file that a host can read holds [Sample.query6] and every
    round trip is orderly for that query, the round trips of all files are
    orderly. *)
Lemma all_orderly (w : Compute.Host) (names : list string) :
  (forall f text, Compute.file w f = Compute.Readable text ->
                  text = Sample.query6) ->
  (forall i, orderly (rt:=Sample.runtime) (Compute.exchange w i)
               (Text.strip Sample.query6)) ->
  forall f, In f names -> Compute.matching f = true ->
            orderly_for (rt:=Sample.runtime) w f.
Proof.
  intros Htext Hord f _ _ query i Hquery. unfold query_of in Hquery.
  destruct (Compute.file w f) as [|e|text] eqn:Hfile; try discriminate.
  injection Hquery as <-. rewrite (Htext f text Hfile). apply Hord.
Qed.

(** The claim C3 fails as it is stated: a directory with one matching
    name that no longer exists gives a log without a row. *)
Lemma skipped_file_counterexample :
  Compute.listdir Sample.dangling = Done ["query6_1.sql"]
  /\ List.length (filter Compute.matching ["query6_1.sql"]) = 1%nat
  /\ Compute.result_file
       (fst (Compute.run_host_client (rt:=Sample.runtime) Sample.dangling))
     = [].
Proof. repeat split. Qed.

(** Nor is there a row for each file when a response dict holds a value of
    another type: with [None] under ['rows'], [len] raises at the first
    file, and the run ends there without a row and without a summary. *)
Example mistyped_response_aborts :
  let r := Compute.run_host_client (rt:=Sample.runtime) Scenario.mistyped in
  snd r = Raising (TypeError "object of type 'NoneType' has no len()")
  /\ Compute.result_file (fst r) = []
  /\ Compute.metrics_file (fst r) = None.
Proof. repeat split. Qed.

(** Nor when a query file is empty: the run logs the file before it and
    then waits for a response that does not come. *)
Example empty_query_blocks :
  let r := Compute.run_host_client (rt:=Sample.runtime) Scenario.blank in
  snd r = Blocked
  /\ map Compute.QueryFile (Compute.result_file (fst r)) = ["query6_1.sql"]
  /\ Compute.metrics_file (fst r) = None.
Proof. repeat split. Qed.

Lemma run_logs_present_files_witness :
  let r := Compute.run_host_client (rt:=Sample.runtime) Sample.shrinking in
  let processed := map Compute.QueryFile (Compute.result_file (fst r)) in
  (exists m, snd r = Value m)
  /\ processed
     = filter (present Sample.shrinking)
         (Compute.sort (filter Compute.matching Sample.corpus))
  /\ StronglySorted name_le processed
  /\ Permutation processed
       (filter (fun f => Compute.matching f && present Sample.shrinking f)
          Sample.corpus)
  /\ List.length (Compute.result_file (fst r))
     = List.length
         (filter (fun f => Compute.matching f && present Sample.shrinking f)
            Sample.corpus)
  /\ ((forall f, In f Sample.corpus -> Compute.matching f = true ->
       present Sample.shrinking f = true) ->
      List.length (Compute.result_file (fst r))
      = List.length (filter Compute.matching Sample.corpus)).
Proof.
  apply (run_logs_present_files (rt:=Sample.runtime) Sample.shrinking
           Sample.corpus).
  - reflexivity.
  - apply all_readable. reflexivity.
  - apply all_orderly.
    + intros f text. cbn. destruct (f =? "query6_2.sql")%string;
        [discriminate | now intros [= <-]].
    + intros i. apply answered_orderly, query6_not_empty.
Defined.

Lemma unreachable_server_record_witness :
  let w := Sample.offline in
  (exists row,
     nth_error
       (Compute.result_file
          (fst (Compute.run_host_client (rt:=Sample.runtime) w))) 0
     = Some row
     /\ Compute.ReturnedRows row = 0%Z /\ Compute.ScannedRows row = 0%Z
     /\ Compute.ServerQueryTime row = 0%Q)
  /\ exists s' row,
       Compute.iteration (rt:=Sample.runtime) w "query6_1.sql"
         Compute.initial
       = (s', Value tt)
       /\ Compute.result_file s' = [row]
       /\ Compute.QueryFile row = "query6_1.sql"
       /\ Compute.ReturnedRows row = 0%Z /\ Compute.ScannedRows row = 0%Z
       /\ Compute.ServerQueryTime row = 0%Q
       /\ Compute.for_each ["query6_1.sql"; "query6_10.sql"]
            (Compute.iteration (rt:=Sample.runtime) w) Compute.initial
          = Compute.for_each ["query6_10.sql"]
              (Compute.iteration (rt:=Sample.runtime) w) s'.
Proof.
  cbv zeta.
  destruct (unreachable_server_record (rt:=Sample.runtime) Sample.offline)
    as (Hzero & Hstep).
  split.
  - eexists. split; [reflexivity|].
    apply (Hzero 0%nat _ (Text.strip Sample.query6)
             (OSError "Connection refused") eq_refl); reflexivity.
  - destruct (Hstep "query6_1.sql" Sample.query6 Compute.initial
                (OSError "Connection refused") eq_refl eq_refl eq_refl)
      as (s' & row & Hiter & Hfile & Hname & H1 & H2 & H3 & Hrest).
    exists s', row.
    exact (conj Hiter (conj Hfile (conj Hname (conj H1 (conj H2 (conj H3
             (Hrest ["query6_10.sql"]))))))).
Defined.



(** The claim C6 fails as it is stated: a run over a directory without a
    query file returns a summary whose execution time is the second that
    the run took. *)
Lemma empty_corpus_counterexample :
  (forall f, In f ["notes.txt"; "query7_1.sql"] -> Compute.matching f = false)
  /\ exists m,
       snd (Compute.run_host_client (rt:=Sample.runtime) Sample.empty_corpus)
         = Value m
       /\ (Compute.execution_time m == 1)%Q
       /\ ~ all_zero m.
Proof.
  split.
  - intros f [<- | [<- | []]]; reflexivity.
  - eexists. split; [reflexivity|]. split; [reflexivity|].
    intros (_ & H & _). discriminate H.
Qed.

Lemma no_matching_file_summary_witness :
  let r := Compute.run_host_client (rt:=Sample.runtime) Sample.empty_corpus in
  Compute.result_file (fst r) = []
  /\ exists m,
       snd r = Value m /\ Compute.metrics_file (fst r) = Some m
       /\ Compute.ThroughPut m = 0%Q
       /\ Compute.total_scanned_rows m = 0%Z
       /\ Compute.total_returned_rows m = 0%Z
       /\ Compute.execution_time m = (101 - 100)%Q
       /\ Compute.cpu_usage m
          = Compute.utilisation Sample.t0 Sample.t1 (101 - 100) 4.
Proof.
  apply (no_matching_file_summary (rt:=Sample.runtime) Sample.empty_corpus
           ["notes.txt"; "query7_1.sql"]).
  - reflexivity.
  - intros f [<- | [<- | []]]; reflexivity.
Defined.

(** The claim C7 fails as it is stated: a run on a missing directory
    raises [FileNotFoundError] and returns no summary. *)
Lemma missing_directory_counterexample :
  Compute.listdir Sample.no_directory = Raised (FileNotFoundError "queries")
  /\ snd (Compute.run_host_client (rt:=Sample.runtime) Sample.no_directory)
     = Raising (FileNotFoundError "queries")
  /\ ~ exists m,
         snd (Compute.run_host_client (rt:=Sample.runtime) Sample.no_directory)
         = Value m.
Proof.
  repeat split. intros [m Hm]. discriminate Hm.
Qed.

Lemma missing_directory_raises_witness :
  let r := Compute.run_host_client (rt:=Sample.runtime) Sample.no_directory in
  snd r = Raising (FileNotFoundError "queries")
  /\ Compute.result_file (fst r) = [] /\ Compute.metrics_file (fst r) = None.
Proof.
  apply (missing_directory_raises (rt:=Sample.runtime) Sample.no_directory
           (FileNotFoundError "queries")).
  reflexivity.
Defined.

(* ================================================================= *)
(** ** More on the text operations *)

Lemma length_app (a b : string) :
  String.length (a ++ b) = (String.length a + String.length b)%nat.
Proof. induction a as [|c a IH]; simpl; [reflexivity | now rewrite IH]. Qed.

Lemma app_assoc_string (a b c : string) : (a ++ b) ++ c = a ++ b ++ c.
Proof. induction a as [|x a IH]; simpl; [reflexivity | now rewrite IH]. Qed.

Lemma app_empty_r (a : string) : a ++ "" = a.
Proof. induction a as [|x a IH]; simpl; [reflexivity | now rewrite IH]. Qed.

(** [index] finds an occurrence at or after its start. *)
Lemma index_some (n m : nat) (sub s : string) :
  index n sub s = Some m ->
  (n <= m)%nat
  /\ exists pre post, s = pre ++ sub ++ post /\ String.length pre = m.
Proof.
  revert n m. induction s as [|b s IH]; intros n m; cbn [index].
  - destruct n; [|discriminate]. destruct sub; [|discriminate].
    intros [= <-]. split; [lia|]. now exists "", "".
  - destruct n as [|n].
    + destruct (prefix sub (String b s)) eqn:Hp.
      * intros [= <-]. split; [lia|]. apply prefix_app in Hp.
        destruct Hp as [post Hpost]. now exists "", post.
      * destruct (index 0 sub s) as [k|] eqn:Hk; [|discriminate].
        intros [= <-]. destruct (IH 0%nat k Hk) as (_ & pre & post & -> & <-).
        split; [lia|]. now exists (String b pre), post.
    + destruct (index n sub s) as [k|] eqn:Hk; [|discriminate].
      intros [= <-]. destruct (IH n k Hk) as (Hn & pre & post & -> & <-).
      split; [lia|]. now exists (String b pre), post.
Qed.

(** [index] misses no occurrence at or after its start, and finds the
    first of them. *)
Lemma index_least (n : nat) (sub pre post : string) :
  (n <= String.length pre)%nat ->
  exists m, index n sub (pre ++ sub ++ post) = Some m
            /\ (m <= String.length pre)%nat.
Proof.
  revert n. induction pre as [|b pre IH]; intros n Hn.
  - simpl in Hn. assert (n = 0)%nat as -> by lia. cbn [append].
    exists 0%nat. split; [|lia].
    assert (prefix sub (sub ++ post) = true) as Hp
      by (apply prefix_app; now exists post).
    destruct (sub ++ post) as [|c t] eqn:Ht; cbn [index].
    + destruct sub; [reflexivity | discriminate].
    + now rewrite Hp.
  - cbn [append index]. destruct n as [|n].
    + destruct (prefix sub _); [exists 0%nat; split; [reflexivity | lia]|].
      destruct (IH 0%nat ltac:(lia)) as (m & -> & Hm).
      exists (S m). split; [reflexivity | simpl; lia].
    + destruct (IH n ltac:(simpl in Hn; lia)) as (m & -> & Hm).
      exists (S m). split; [reflexivity | simpl; lia].
Qed.

Lemma index_first (sub s pre : string) :
  first_at sub s pre -> index 0 sub s = Some (String.length pre).
Proof.
  intros [[post ->] Hfirst].
  destruct (index_least 0 sub pre post ltac:(lia)) as (m & Hm & Hle).
  rewrite Hm. f_equal.
  destruct (index_some _ _ _ _ Hm) as (_ & pre' & post' & Heq & <-).
  specialize (Hfirst pre' post' Heq). lia.
Qed.

Lemma index_first_inv (sub s : string) (m : nat) :
  index 0 sub s = Some m ->
  exists pre, first_at sub s pre /\ String.length pre = m.
Proof.
  intros Hm. destruct (index_some _ _ _ _ Hm) as (_ & pre & post & -> & <-).
  exists pre. split; [|reflexivity]. split; [now exists post|].
  intros pre' post' Heq.
  destruct (Nat.le_gt_cases (String.length pre) (String.length pre'))
    as [Hle|Hgt]; [exact Hle|].
  destruct (index_least 0 sub pre' post' ltac:(lia)) as (k & Hk & Hle).
  rewrite <- Heq, Hm in Hk. injection Hk as <-. lia.
Qed.

(** Searching from the end of [a] in [a ++ s] is searching in [s]. *)
Lemma index_skip (a sub s : string) (n : nat) :
  index (String.length a + n) sub (a ++ s)
  = option_map (fun m => (String.length a + m)%nat) (index n sub s).
Proof.
  induction a as [|c a IH]; cbn [append String.length Nat.add index].
  - now destruct (index n sub s).
  - rewrite IH. now destruct (index n sub s).
Qed.

Lemma substring_skip (a s : string) (n k : nat) :
  substring (String.length a + n) k (a ++ s) = substring n k s.
Proof. induction a as [|c a IH]; simpl; [reflexivity | exact IH]. Qed.

Lemma substring_prefix (a s : string) :
  substring 0 (String.length a) (a ++ s) = a.
Proof.
  induction a as [|c a IH]; simpl; [now destruct s | now rewrite IH].
Qed.

(* ================================================================= *)
(** ** The tracing id of a request *)

Lemma extract_query_id_found (pre rest id : string) :
  first_at "query6_" (pre ++ "query6_" ++ rest) pre ->
  first_at ".sql" rest id ->
  Storage.extract_query_id (pre ++ "query6_" ++ rest)
  = if (String.length id =? 0)%nat then "unknown" else id.
Proof.
  intros Hpre Hid. unfold Storage.extract_query_id.
  assert (Text.str_in "query6_" (pre ++ "query6_" ++ rest) = true) as ->
    by (apply str_in_occurs; now exists pre, rest).
  unfold Text.find. rewrite (index_first _ _ _ Hpre). cbv zeta.
  replace (Z.to_nat (Z.of_nat (String.length pre)
                     + Z.of_nat (String.length "query6_")))
    with (String.length (pre ++ "query6_") + 0)%nat
    by (rewrite length_app; lia).
  rewrite <- (app_assoc_string pre "query6_" rest), index_skip.
  rewrite (index_first _ _ _ Hid). cbn [option_map].
  destruct Hid as [[post ->] _].
  destruct (Nat.eqb_spec (String.length id) 0) as [H0|H0].
  - rewrite (proj2 (Z.ltb_ge _ _)); [reflexivity|].
    rewrite length_app. lia.
  - rewrite (proj2 (Z.ltb_lt _ _)) by (rewrite length_app; lia).
    unfold Text.slice.
    replace (Z.to_nat (Z.of_nat (String.length pre)
                       + Z.of_nat (String.length "query6_")))
      with (String.length (pre ++ "query6_") + 0)%nat
      by (rewrite length_app; lia).
    replace (Z.to_nat _) with (String.length id)
      by (rewrite length_app; lia).
    rewrite substring_skip. apply substring_prefix.
Qed.

Lemma extract_query_id_open (pre rest : string) :
  first_at "query6_" (pre ++ "query6_" ++ rest) pre ->
  index 0 ".sql" rest = None ->
  Storage.extract_query_id (pre ++ "query6_" ++ rest) = "unknown".
Proof.
  intros Hpre Hnone. unfold Storage.extract_query_id.
  assert (Text.str_in "query6_" (pre ++ "query6_" ++ rest) = true) as ->
    by (apply str_in_occurs; now exists pre, rest).
  unfold Text.find. rewrite (index_first _ _ _ Hpre). cbv zeta.
  replace (Z.to_nat (Z.of_nat (String.length pre)
                     + Z.of_nat (String.length "query6_")))
    with (String.length (pre ++ "query6_") + 0)%nat
    by (rewrite length_app; lia).
  rewrite <- (app_assoc_string pre "query6_" rest), index_skip, Hnone.
  cbn [option_map]. rewrite (proj2 (Z.ltb_ge _ _)); [reflexivity | lia].
Qed.

Lemma first_at_clean (sub rest id : string) :
  sub <> "" -> first_at sub rest id -> ~ occurs sub id.
Proof.
  intros Hsub [[post ->] Hfirst] [a [b ->]].
  specialize (Hfirst a (b ++ sub ++ post)).
  rewrite !app_assoc_string in Hfirst. specialize (Hfirst eq_refl).
  rewrite !length_app in Hfirst.
  destruct sub; [congruence | simpl in Hfirst; lia].
Qed.

(** X1: the id that [handle_client] logs for the text of a request that names
    a file [query6_<id>.sql] is [<id>], read at the first [query6_] of the
    text and up to the first [.sql] after it; when nothing stands between
    the two the id is [unknown]. *)
Theorem query_id_of_hint (query pre rest id : string) :
  first_at "query6_" query pre ->
  query = pre ++ "query6_" ++ rest ->
  first_at ".sql" rest id ->
  (id <> "" -> Storage.extract_query_id query = id)
  /\ (id = "" -> Storage.extract_query_id query = "unknown").
Proof.
  intros Hpre -> Hid. rewrite (extract_query_id_found pre rest id Hpre Hid).
  destruct id; simpl; split; congruence.
Qed.

(** X2: an id other than [unknown] is always read off the text in that way: it
    stands between the first [query6_] and the first [.sql] after it.  So
    the id of a row is never empty and never contains [.sql]. *)
Theorem query_id_sound (query : string) :
  let id := Storage.extract_query_id query in
  id <> "" /\ ~ occurs ".sql" id
  /\ (id <> "unknown" ->
      exists pre rest,
        first_at "query6_" query pre /\ query = pre ++ "query6_" ++ rest
        /\ first_at ".sql" rest id).
Proof.
  cbv zeta.
  assert (~ occurs ".sql" "unknown") as Hunknown
    by (now apply str_in_absent).
  destruct (Text.str_in "query6_" query) eqn:Hin.
  - apply str_in_occurs in Hin. destruct Hin as (pre0 & post0 & Hq).
    destruct (index_least 0 "query6_" pre0 post0 ltac:(lia)) as (m & Hm & _).
    rewrite <- Hq in Hm.
    destruct (index_first_inv _ _ _ Hm) as (pre & Hpre & _).
    destruct (proj1 Hpre) as [rest Hrest]. clear Hq Hm. subst query.
    destruct (index 0 ".sql" rest) as [e|] eqn:He.
    + destruct (index_first_inv _ _ _ He) as (id & Hid & _).
      rewrite (extract_query_id_found pre rest id Hpre Hid).
      destruct id as [|c id]; cbn [String.length Nat.eqb].
      * repeat split; [discriminate | exact Hunknown | congruence].
      * repeat split; [discriminate | |].
        -- apply (first_at_clean ".sql" rest); [discriminate | exact Hid].
        -- intros _. now exists pre, rest.
    + rewrite (extract_query_id_open pre rest Hpre He).
      repeat split; [discriminate | exact Hunknown | congruence].
  - unfold Storage.extract_query_id. rewrite Hin.
    repeat split; [discriminate | exact Hunknown | congruence].
Qed.

Lemma first_at_index (sub pre post : string) :
  index 0 sub (pre ++ sub ++ post) = Some (String.length pre) ->
  first_at sub (pre ++ sub ++ post) pre.
Proof.
  intros Hm. split; [now exists post|]. intros pre' post' Heq.
  destruct (Nat.le_gt_cases (String.length pre) (String.length pre'))
    as [Hle|Hgt]; [exact Hle|].
  destruct (index_least 0 sub pre' post' ltac:(lia)) as (k & Hk & Hle).
  rewrite <- Heq, Hm in Hk. injection Hk as <-. lia.
Qed.

Lemma query_id_of_hint_witness :
  ("12" <> "" ->
   Storage.extract_query_id "-- query6_12.sql: SELECT 1 FROM lineitem"
   = "12")
  /\ ("12" = "" ->
      Storage.extract_query_id "-- query6_12.sql: SELECT 1 FROM lineitem"
      = "unknown").
Proof.
  apply (query_id_of_hint _ "-- " "12.sql: SELECT 1 FROM lineitem" "12").
  - apply (first_at_index "query6_" "-- " "12.sql: SELECT 1 FROM lineitem").
    reflexivity.
  - reflexivity.
  - apply (first_at_index ".sql" "12" ": SELECT 1 FROM lineitem").
    reflexivity.
Defined.

Lemma query_id_sound_witness :
  Storage.extract_query_id "SELECT 'query6_7.sql.sql'" <> ""
  /\ ~ occurs ".sql" (Storage.extract_query_id "SELECT 'query6_7.sql.sql'")
  /\ Storage.extract_query_id "SELECT 'query6_7.sql.sql'" = "7".
Proof.
  destruct (query_id_sound "SELECT 'query6_7.sql.sql'") as (H1 & H2 & _).
  repeat split; assumption.
Defined.

(* ================================================================= *)
(** ** More on the Storage Node *)

Section StorageNodeLog.
Context `{rt : Runtime}.
Import Storage.
Local Open Scope Z_scope.

Variables (c : Connection) (cpu_count : positive) (file : list DpuRow).
Variable scale_factor : Z.



(** X4: when a request is served, the row that the handler logs agrees with
    the envelope that it has sent: the same scanned rows, the same
    execution time, and as many returned rows as the envelope holds. *)
Theorem served_request_row (data payload : list byte) (text : string)
    (rows : list row) :
  recv c = Done data -> data <> [] -> decode_utf8 data = Some text ->
  execute c (Text.strip text) = Done rows ->
  csv_open c = Done tt ->
  sent (fst (handle_client c cpu_count file scale_factor)) = Some payload ->
  exists envelope row,
    pickle_dumps envelope = Some payload
    /\ p_rows envelope = rows
    /\ appended file (handle_client c cpu_count file scale_factor) = [row]
    /\ ScannedRows row = p_scanned_rows envelope
    /\ ExecutionTime row = p_query_time envelope
    /\ RowsReturned row = len (p_rows envelope).
Proof.
  intros Hrecv Hdata Hdec Hexec Hopen Hsent.
  assert (request_text data (Text.strip text)) as Hreq by (exists text; auto).
  pose proof (handle_client_request c cpu_count file scale_factor data _
                Hrecv Hdata Hreq) as H.
  cbv zeta in H. destruct H as (_ & Hiff & Hrows & Hone & _).
  destruct (proj1 (Hiff payload) Hsent) as (rows' & Hexec' & Hdump & Hsend).
  assert (rows' = rows) as -> by congruence.
  destruct (Hone Hopen) as [row Hrow].
  exists (mk_payload rows
            (estimate_scanned_rows (Text.strip text) scale_factor)
            (query_end c - query_start c)), row.
  split; [exact Hdump|]. split; [reflexivity|]. split; [exact Hrow|].
  assert (In row (appended file (handle_client c cpu_count file scale_factor)))
    as Hin by (rewrite Hrow; now left).
  destruct (Hrows row Hin)
    as [(rows2 & payload2 & (He2 & _) & Hs & Hr & Ht) | (Hnone & _)].
  - assert (rows2 = rows) as -> by congruence. cbn. auto.
  - exfalso. exact (Hnone rows payload (conj Hexec (conj Hdump Hsend))).
Qed.

End StorageNodeLog.

Lemma served_request_row_witness :
  exists envelope row,
    pickle_dumps (Runtime:=Sample.runtime) envelope = Some [x80; x02]
    /\ p_rows envelope = [[SNum 5]; [SNum 7]]
    /\ Storage.appended []
         (Storage.handle_client (rt:=Sample.runtime)
            (Sample.served Sample.query6) 4 [] 1) = [row]
    /\ Storage.ScannedRows row = p_scanned_rows envelope
    /\ Storage.ExecutionTime row = p_query_time envelope
    /\ Storage.RowsReturned row = len (p_rows envelope).
Proof.
  apply (served_request_row (rt:=Sample.runtime)
           (Sample.served Sample.query6) 4 [] 1
           (list_byte_of_string Sample.query6) [x80; x02] Sample.query6
           [[SNum 5]; [SNum 7]]); try reflexivity.
  discriminate.
Defined.

Lemma handle_client_failure_record_witness :
  let r := Storage.handle_client (rt:=Sample.runtime) Scenario.rejected 4 []
             1 in
  Storage.completed r = true
  /\ exists row, Storage.appended [] r = [row]
       /\ Storage.ExecutionTime row = 0%Q
       /\ Storage.RowsReturned row = 0%Z
       /\ Storage.ScannedRows row = 0%Z.
Proof.
  apply (handle_client_failure_record (rt:=Sample.runtime)
           Scenario.rejected 4 [] 1
           (list_byte_of_string "SELECT * FROM lineitem WHERE")
           "SELECT * FROM lineitem WHERE").
  - reflexivity.
  - discriminate.
  - exists "SELECT * FROM lineitem WHERE". split; reflexivity.
  - intros rows payload Hexec. discriminate Hexec.
  - reflexivity.
Defined.

Lemma logged_row_bounds_witness :
  exists row,
    Storage.appended []
      (Storage.handle_client (rt:=Sample.runtime)
         (Sample.served Sample.query6) 4 [] 1) = [row]
    /\ (0 <= Storage.ExecutionTime row)%Q
    /\ (0 <= Storage.CPUUsage row)%Q
    /\ (Storage.CPUUsage row <= 100 * inject_Z 4)%Q.
Proof.
  eexists. split; [reflexivity|].
  apply (logged_row_bounds (rt:=Sample.runtime)
           (Sample.served Sample.query6) 4 [] 1).
  - now left.
  - discriminate.
  - discriminate.
  - discriminate.
Defined.

(* ================================================================= *)
(** ** More on the Compute Node *)

Lemma sorted_unique (l l' : list string) :
  StronglySorted name_le l -> StronglySorted name_le l' ->
  Permutation l l' -> l = l'.
Proof.
  intros Hl. revert l'. induction Hl as [|x l Hl IH Hx]; intros l' Hl' Hperm.
  - now apply Permutation_nil in Hperm.
  - destruct Hl' as [|y l' Hl' Hy].
    + apply Permutation_sym, Permutation_nil in Hperm. discriminate.
    + assert (x = y) as <-.
      { assert (In x (y :: l')) as Hxin
          by (apply (Permutation_in _ Hperm); now left).
        assert (In y (x :: l)) as Hyin
          by (apply (Permutation_in _ (Permutation_sym Hperm)); now left).
        destruct Hxin as [->|Hxin]; [reflexivity|].
        destruct Hyin as [->|Hyin]; [reflexivity|].
        rewrite Forall_forall in Hx, Hy.
        apply String.leb_antisym; [apply Hx | apply Hy]; assumption. }
      f_equal. apply IH; [exact Hl'|].
      now apply Permutation_cons_inv in Hperm.
Qed.

Lemma rate_nonneg (x : Z) (wall : Q) : (0 <= Compute.rate x wall)%Q.
Proof.
  unfold Compute.rate, Qpos.
  destruct (Qlt_le_dec 0 wall) as [Hw|Hw], (Z.ltb_spec 0 x) as [Hx|Hx];
    cbn [andb]; try apply Qle_refl.
  apply Qle_shift_div_l; [exact Hw|]. rewrite Qmult_0_l.
  change 0%Q with (inject_Z 0). rewrite <- Zle_Qle. lia.
Qed.

Lemma utilisation_bounds (t0 t1 : cpu_times) (wall : Q) (cpus : positive) :
  let busy := (user t1 - user t0 + (system t1 - system t0))%Q in
  (0 <= busy)%Q -> (busy <= inject_Z (Zpos cpus) * wall)%Q ->
  (0 <= Compute.utilisation t0 t1 wall cpus)%Q
  /\ (Compute.utilisation t0 t1 wall cpus <= 100)%Q.
Proof.
  intros busy Hbusy Hcap. unfold Compute.utilisation, Qpos. fold busy.
  assert (1 <= inject_Z (Zpos cpus))%Q as Hcpus
    by (unfold Qle; simpl; lia).
  destruct (Qlt_le_dec 0 wall) as [Hwall|Hwall]; [|split; lra].
  assert (0 < wall * inject_Z (Zpos cpus))%Q as Hd by nra.
  assert (0 <= busy / (wall * inject_Z (Zpos cpus)))%Q as Hlo
    by (apply Qle_shift_div_l; [exact Hd | lra]).
  assert (busy / (wall * inject_Z (Zpos cpus)) <= 1)%Q as Hhi
    by (apply Qle_shift_div_r; [exact Hd | lra]).
  split; lra.
Qed.

Section ComputeNodeRun.
Context `{rt : Runtime}.
Import Compute.
Local Open Scope Z_scope.

Variable w : Host.

Lemma for_each_app (a b : list string) (s : State) :
  for_each (a ++ b) (iteration w) s
  = bind (for_each a (iteration w)) (fun _ => for_each b (iteration w)) s.
Proof.
  revert s. induction a as [|f a IH]; intros s; cbn [for_each app].
  - reflexivity.
  - unfold bind. destruct (iteration w f s) as [s1 [[]| |e|]].
    + rewrite IH. reflexivity.
    + reflexivity.
    + reflexivity.
    + reflexivity.
Qed.

(** X7: when a query file cannot be opened or read, the run stops at that
    file, once the loop has come to it (the files before it can be read and
    their round trips are orderly): the exception leaves
    [run_host_client], the log keeps the rows of the files that came
    before it in the sorted order, and no summary is saved. *)
Theorem unreadable_file_aborts (names before after : list string)
    (f : string) (e : exn) :
  listdir w = Done names ->
  sort (filter matching names) = (before ++ f :: after)%list ->
  (forall g, In g before -> readable w g) ->
  (forall g, In g before -> orderly_for w g) ->
  file w f = Unreadable e ->
  let r := run_host_client w in
  snd r = Raising e
  /\ map QueryFile (result_file (fst r)) = filter (present w) before
  /\ metrics_file (fst r) = None.
Proof.
  intros Hlist Hsort Hread Hord Hfile. cbv zeta.
  destruct (for_each_orderly w before initial Hread Hord)
    as (s' & Hbefore & Hnames & Hmetrics).
  assert (run_host_client w = (s', Raising e)) as ->.
  { unfold run_host_client, call. rewrite Hlist. unfold bind, pure.
    rewrite Hsort, for_each_app. unfold bind. rewrite Hbefore.
    cbn [for_each]. unfold bind, iteration. rewrite Hfile. reflexivity. }
  cbn [fst snd]. repeat split; assumption.
Qed.

(** X8: the summary of a run adds up its log: the returned rows of the summary
    are the sum of the returned rows of the log, which are never negative,
    the counter of executed queries is the number of rows, and the summary
    saved to [benchmark_metrics.json] is the one returned. *)
Theorem summary_adds_up (m : AggregateSummary) :
  snd (run_host_client w) = Value m ->
  let s := fst (run_host_client w) in
  total_returned_rows m = total (map ReturnedRows (result_file s))
  /\ (forall row, In row (result_file s) -> 0 <= ReturnedRows row)
  /\ 0 <= total_returned_rows m
  /\ executed_count s = len (result_file s)
  /\ metrics_file s = Some m.
Proof.
  intros Hm. cbv zeta.
  destruct (run_summary w m Hm) as (Heq & Hsaved).
  destruct (run_consistent w) as (Hcount & _ & Hret & Hlogged).
  assert (forall row, In row (result_file (fst (run_host_client w))) ->
                      0 <= ReturnedRows row) as Hpos.
  { intros row Hrow. apply In_nth_error in Hrow. destruct Hrow as [i Hi].
    destruct (Hlogged i row Hi)
      as (query & rows & scanned & data_time & data_size & server_time
          & _ & _ & Hshape).
    rewrite Hshape. cbn [ReturnedRows]. unfold len. lia. }
  assert (total_returned_rows m
          = total (map ReturnedRows (result_file (fst (run_host_client w)))))
    as Htotal by (rewrite Heq; exact Hret).
  repeat split; try assumption.
  rewrite Htotal. clear - Hpos. unfold total.
  induction (result_file (fst (run_host_client w))) as [|row l IH];
    cbn [map fold_right].
  - lia.
  - specialize (Hpos row (or_introl eq_refl)) as H0.
    assert (0 <= fold_right Z.add 0 (map ReturnedRows l))
      by (apply IH; intros r Hr; apply Hpos; now right).
    lia.
Qed.

(** X9: while the Storage Node cannot be reached (every round trip ends in
    an exception of the transport), a run whose directory is listed and
    whose files can be read still writes a row for every file that passes
    the existence check, each with no rows, no scanned rows, no bytes and
    no throughput, and it returns a summary with no scanned rows, no
    returned rows and a throughput of 0. *)
Theorem offline_run (names : list string) :
  listdir w = Done names ->
  (forall f, In f names -> matching f = true -> readable w f) ->
  (forall i query,
     ends (exchange w i) query = true
     /\ exists e, transport (exchange w i) query = Raised e) ->
  let r := run_host_client w in
  map QueryFile (result_file (fst r))
  = filter (present w) (sort (filter matching names))
  /\ (forall row, In row (result_file (fst r)) ->
        ReturnedRows row = 0 /\ ScannedRows row = 0 /\ DataSize row = 0
        /\ DataTransferTime row = 0%Q /\ ServerQueryTime row = 0%Q
        /\ Throughput row = 0%Q)
  /\ exists m,
       snd r = Value m
       /\ total_scanned_rows m = 0 /\ total_returned_rows m = 0
       /\ ThroughPut m = 0%Q.
Proof.
  intros Hlist Hread Hdown. cbv zeta.
  destruct (run_returns w names Hlist Hread) as ([m Hm] & Hnames).
  { intros f _ _ query i _. destruct (Hdown i query) as (Hends & e & He).
    split; [exact Hends|]. intros data rows scanned qt Hdata. congruence. }
  destruct (run_consistent w) as (_ & Hscan & Hret & Hlogged).
  assert (forall row, In row (result_file (fst (run_host_client w))) ->
            ReturnedRows row = 0 /\ ScannedRows row = 0 /\ DataSize row = 0
            /\ DataTransferTime row = 0%Q /\ ServerQueryTime row = 0%Q
            /\ Throughput row = 0%Q) as Hrows.
  { intros row Hrow. apply In_nth_error in Hrow. destruct Hrow as [i Hi].
    destruct (Hlogged i row Hi)
      as (query & rows & scanned & data_time & data_size & server_time
          & _ & Hsend & Hshape).
    destruct (Hdown (Z.of_nat i) query) as (Hends & e & He).
    cbv zeta in Hsend.
    rewrite (send_query_unreachable _ _ e Hends He) in Hsend.
    injection Hsend as <- <- <- <- <-.
    rewrite Hshape. cbn. repeat split.
    unfold rate. now rewrite andb_false_r. }
  split; [exact Hnames|]. split; [exact Hrows|]. exists m.
  split; [exact Hm|].
  destruct (run_summary w m Hm) as (-> & _).
  cbn [total_scanned_rows total_returned_rows ThroughPut].
  assert (total_scanned (fst (run_host_client w)) = 0
          /\ total_rows_returned (fst (run_host_client w)) = 0) as [-> ->].
  { rewrite Hscan, Hret. clear - Hrows. unfold total.
    induction (result_file (fst (run_host_client w))) as [|row l IH];
      cbn [map fold_right].
    - auto.
    - destruct (Hrows row (or_introl eq_refl)) as (-> & -> & _).
      destruct IH as [-> ->]; [|auto].
      intros r Hr. apply Hrows. now right. }
  repeat split. unfold rate. now rewrite andb_false_r.
Qed.

(** X10: no throughput is negative: neither that of a row nor that of the
    summary, whatever the clocks read and whatever number of scanned rows
    the server reports. *)
Theorem throughput_nonnegative :
  let r := run_host_client w in
  (forall row, In row (result_file (fst r)) -> (0 <= Throughput row)%Q)
  /\ (forall m, snd r = Value m -> (0 <= ThroughPut m)%Q).
Proof.
  cbv zeta. destruct (run_consistent w) as (_ & _ & _ & Hlogged). split.
  - intros row Hrow. apply In_nth_error in Hrow. destruct Hrow as [i Hi].
    destruct (Hlogged i row Hi)
      as (query & rows & scanned & data_time & data_size & server_time
          & _ & _ & Hshape).
    rewrite Hshape. cbn [Throughput]. apply rate_nonneg.
  - intros m Hm. destruct (run_summary w m Hm) as (-> & _).
    cbn [ThroughPut]. apply rate_nonneg.
Qed.

(** X11: the CPU usage of a row lies between 0 and 100 when the CPU time that
    the process has used around the round trip is not negative and is at
    most the CPU count times the round-trip time. *)
Theorem host_row_cpu_bounds (i : nat) (row : HostRow) :
  nth_error (result_file (fst (run_host_client w))) i = Some row ->
  let x := exchange w (Z.of_nat i) in
  let busy := (user (single_query_cpu_end x) - user (single_query_cpu_start x)
               + (system (single_query_cpu_end x)
                  - system (single_query_cpu_start x)))%Q in
  (0 <= busy)%Q ->
  (busy <= inject_Z (Zpos (num_cpus w)) * round_trip w i)%Q ->
  (0 <= CPUUsage row)%Q /\ (CPUUsage row <= 100)%Q.
Proof.
  intros Hrow x busy Hbusy Hcap.
  destruct (run_consistent w) as (_ & _ & _ & Hlogged).
  destruct (Hlogged i row Hrow)
    as (query & rows & scanned & data_time & data_size & server_time
        & _ & _ & Hshape).
  rewrite Hshape. cbn [CPUUsage]. now apply utilisation_bounds.
Qed.

End ComputeNodeRun.

(** X12: the order in which [os.listdir] returns the names is of no
    consequence: two listings of the same names give the same run, row by
    row. *)
Theorem listing_order_irrelevant `{rt : Runtime} (w : Compute.Host)
    (names names' : list string) :
  Permutation names names' ->
  Compute.run_host_client (with_listing w names)
  = Compute.run_host_client (with_listing w names').
Proof.
  intros Hperm.
  assert (Compute.sort (filter Compute.matching names)
          = Compute.sort (filter Compute.matching names')) as Hsort.
  { apply sorted_unique; try apply sort_sorted.
    rewrite <- !sort_perm. now apply filter_perm. }
  unfold Compute.run_host_client, call, with_listing.
  cbn [Compute.listdir]. unfold bind at 1 3, pure. now rewrite Hsort.
Qed.

Lemma listing_order_irrelevant_witness :
  Compute.run_host_client (rt:=Sample.runtime)
    (with_listing Sample.healthy Sample.corpus)
  = Compute.run_host_client (rt:=Sample.runtime)
      (with_listing Sample.healthy (rev Sample.corpus)).
Proof.
  apply (listing_order_irrelevant (rt:=Sample.runtime) Sample.healthy
           Sample.corpus (rev Sample.corpus)).
  apply Permutation_rev.
Defined.

Lemma unreadable_file_aborts_witness :
  let r := Compute.run_host_client (rt:=Sample.runtime) Scenario.unreadable in
  snd r = Raising (OSError "Permission denied")
  /\ map Compute.QueryFile (Compute.result_file (fst r))
     = filter (present Scenario.unreadable) ["query6_1.sql"]
  /\ Compute.metrics_file (fst r) = None.
Proof.
  apply (unreadable_file_aborts (rt:=Sample.runtime) Scenario.unreadable
           Sample.corpus ["query6_1.sql"] ["query6_2.sql"] "query6_10.sql"
           (OSError "Permission denied")).
  - reflexivity.
  - reflexivity.
  - intros g [<- | []] e He. discriminate He.
  - intros g Hg.
    apply (all_orderly Scenario.unreadable ["query6_1.sql"]);
      [| |exact Hg|destruct Hg as [<- | []]; reflexivity].
    + intros f text. cbn. destruct (f =? "query6_10.sql")%string;
        [discriminate | now intros [= <-]].
    + intros i. apply answered_orderly, query6_not_empty.
  - reflexivity.
Defined.

Lemma summary_adds_up_witness :
  exists m,
    snd (Compute.run_host_client (rt:=Sample.runtime) Sample.healthy)
      = Value m
    /\ Compute.total_returned_rows m = 3%Z
    /\ Compute.metrics_file
         (fst (Compute.run_host_client (rt:=Sample.runtime) Sample.healthy))
       = Some m.
Proof.
  eexists. split; [reflexivity|].
  destruct (summary_adds_up (rt:=Sample.runtime) Sample.healthy _ eq_refl)
    as (Htotal & _ & _ & _ & Hsaved).
  split; [exact Htotal | exact Hsaved].
Defined.

Lemma offline_run_witness :
  let r := Compute.run_host_client (rt:=Sample.runtime) Sample.offline in
  map Compute.QueryFile (Compute.result_file (fst r))
  = ["query6_1.sql"; "query6_10.sql"; "query6_2.sql"]
  /\ (forall row, In row (Compute.result_file (fst r)) ->
        Compute.ReturnedRows row = 0%Z /\ Compute.ScannedRows row = 0%Z
        /\ Compute.DataSize row = 0%Z
        /\ Compute.DataTransferTime row = 0%Q
        /\ Compute.ServerQueryTime row = 0%Q
        /\ Compute.Throughput row = 0%Q)
  /\ exists m,
       snd r = Value m
       /\ Compute.total_scanned_rows m = 0%Z
       /\ Compute.total_returned_rows m = 0%Z
       /\ Compute.ThroughPut m = 0%Q.
Proof.
  apply (offline_run (rt:=Sample.runtime) Sample.offline Sample.corpus).
  - reflexivity.
  - apply all_readable. reflexivity.
  - intros i query. split; [reflexivity|].
    exists (OSError "Connection refused"). reflexivity.
Defined.

Lemma throughput_nonnegative_witness :
  exists row,
    nth_error
      (Compute.result_file
         (fst (Compute.run_host_client (rt:=Sample.runtime) Sample.healthy)))
      0 = Some row
    /\ (0 <= Compute.Throughput row)%Q.
Proof.
  eexists. split; [reflexivity|].
  apply (proj1 (throughput_nonnegative (rt:=Sample.runtime) Sample.healthy)).
  now left.
Defined.

Lemma host_row_cpu_bounds_witness :
  exists row,
    nth_error
      (Compute.result_file
         (fst (Compute.run_host_client (rt:=Sample.runtime) Sample.healthy)))
      0 = Some row
    /\ (0 <= Compute.CPUUsage row)%Q /\ (Compute.CPUUsage row <= 100)%Q.
Proof.
  eexists. split; [reflexivity|].
  apply (host_row_cpu_bounds (rt:=Sample.runtime) Sample.healthy 0%nat _
           eq_refl); discriminate.
Defined.

(* ================================================================= *)
(** ** The corpus of [generate_queries] *)

Lemma substring_all (p : string) : substring 0 (String.length p) p = p.
Proof.
  rewrite <- (app_empty_r p) at 2. apply substring_prefix.
Qed.

Lemma endswith_app (a p : string) : Text.endswith (a ++ p) p = true.
Proof.
  unfold Text.endswith. rewrite length_app.
  rewrite (proj2 (Nat.leb_le _ _)) by lia.
  replace (String.length a + String.length p - String.length p)%nat
    with (String.length a + 0)%nat by lia.
  rewrite substring_skip, substring_all. apply String.eqb_refl.
Qed.

Lemma matching_query_name (i : Z) :
  Compute.matching (Corpus.query_name i) = true.
Proof.
  unfold Compute.matching, Corpus.query_name.
  rewrite <- app_assoc_string, endswith_app, andb_true_r.
  unfold Text.startswith. apply prefix_app.
  eexists. apply app_assoc_string.
Qed.

Lemma lower_app (a b : string) :
  Text.lower (a ++ b) = Text.lower a ++ Text.lower b.
Proof.
  induction a as [|c a IH]; cbn [append Text.lower];
    [reflexivity | now rewrite IH].
Qed.

Lemma occurs_app_r (n a b : string) : occurs n b -> occurs n (a ++ b).
Proof.
  intros (pre & post & ->). exists (a ++ pre), post.
  now rewrite app_assoc_string.
Qed.

Lemma occurs_app_l (n a b : string) : occurs n a -> occurs n (a ++ b).
Proof.
  intros (pre & post & ->). exists pre, (post ++ b).
  now rewrite !app_assoc_string.
Qed.

(** What [posixpath.join] does with a component that does not start with
    a separator. *)
Lemma join_step_relative (path b : string) :
  Text.startswith b "/" = false ->
  exists sep, (sep = "" \/ sep = "/")
              /\ Corpus.join_step path b = path ++ sep ++ b.
Proof.
  intros Hb. unfold Corpus.join_step. rewrite Hb.
  destruct ((path =? "") || Text.endswith path "/")%bool.
  - exists "". auto.
  - exists "/". auto.
Qed.

(** The path that a generated query reads: the script directory, then the
    components [datasets], [dataset_<i>] and [lineitem.tbl], each after at
    most one separator. *)
Lemma query_path (SCRIPT_DIR : string) (i : Z) :
  exists s1 s2 s3,
    (s1 = "" \/ s1 = "/") /\ (s2 = "" \/ s2 = "/") /\ (s3 = "" \/ s3 = "/")
    /\ Corpus.join (Corpus.DATASETS_DIR SCRIPT_DIR)
         ["dataset_" ++ Corpus.str i; "lineitem.tbl"]
       = SCRIPT_DIR
         ++ (s1 ++ "datasets" ++ s2 ++ "dataset_")
         ++ Corpus.str i ++ s3 ++ "lineitem.tbl".
Proof.
  unfold Corpus.DATASETS_DIR, Corpus.join. cbn [fold_left].
  destruct (join_step_relative SCRIPT_DIR "datasets" eq_refl)
    as (s1 & H1 & ->).
  destruct (join_step_relative (SCRIPT_DIR ++ s1 ++ "datasets")
              ("dataset_" ++ Corpus.str i) eq_refl) as (s2 & H2 & ->).
  destruct (join_step_relative
              ((SCRIPT_DIR ++ s1 ++ "datasets") ++ s2 ++ "dataset_"
               ++ Corpus.str i) "lineitem.tbl" eq_refl) as (s3 & H3 & ->).
  exists s1, s2, s3. repeat split; try assumption.
  now rewrite !app_assoc_string.
Qed.

Lemma query_text_lineitem (SCRIPT_DIR : string) (i : Z) :
  occurs "lineitem" (Text.lower (Corpus.query_text SCRIPT_DIR i)).
Proof.
  unfold Corpus.query_text.
  destruct (query_path SCRIPT_DIR i) as (s1 & s2 & s3 & _ & _ & _ & ->).
  rewrite !lower_app.
  do 8 apply occurs_app_r. apply occurs_app_l.
  do 4 apply occurs_app_r. now exists "", ".tbl".
Qed.

Lemma has_char_app (c : ascii) (a b : string) :
  has_char c (a ++ b) = (has_char c a || has_char c b)%bool.
Proof.
  induction a as [|d a IH]; cbn [append has_char];
    [reflexivity | now rewrite IH, orb_assoc].
Qed.

(** The decimal form of an integer holds digits and a sign only. *)
Lemma str_chars (c : ascii) (i : Z) :
  has_char c "-0123456789" = false -> has_char c (Corpus.str i) = false.
Proof.
  intros Hc. cbn [has_char] in Hc.
  repeat (apply orb_false_elim in Hc; destruct Hc as [? Hc]).
  assert (forall d, has_char c (NilEmpty.string_of_uint d) = false) as Huint.
  { induction d; cbn [NilEmpty.string_of_uint has_char];
      rewrite ?IHd; try reflexivity; now rewrite orb_false_r. }
  assert (forall d, has_char c (NilZero.string_of_uint d) = false) as Hzero.
  { intros d. unfold NilZero.string_of_uint.
    destruct d; try apply Huint. cbn [has_char]. now rewrite orb_false_r. }
  unfold Corpus.str, NilZero.string_of_int.
  destruct (Z.to_int i); cbn [has_char]; rewrite ?Hzero;
    try reflexivity. now rewrite orb_false_r.
Qed.

(** No occurrence of a word starts in a text without its first letter. *)
Lemma str_in_skip (a : ascii) (n x b : string) :
  has_char a x = false ->
  Text.str_in (String a n) (x ++ b) = Text.str_in (String a n) b.
Proof.
  induction x as [|c x IH]; cbn [append has_char]; [reflexivity|].
  intros Hc. apply orb_false_elim in Hc. destruct Hc as [Hac Hx].
  cbn [Text.str_in prefix]. destruct (ascii_dec a c) as [->|_].
  - now rewrite Ascii.eqb_refl in Hac.
  - now apply IH.
Qed.

Lemma prefix_app_split (n x b : string) :
  prefix n (x ++ b) = true ->
  prefix n x = true
  \/ exists k r, n = k ++ r /\ r <> "" /\ prefix r b = true.
Proof.
  revert n. induction x as [|c x IH]; intros n Hn.
  - cbn [append] in Hn. destruct n as [|a n]; [left; reflexivity|].
    right. exists "", (String a n). repeat split; [discriminate | exact Hn].
  - destruct n as [|a n]; [left; reflexivity|].
    cbn [append prefix] in *. destruct (ascii_dec a c) as [->|_];
      [|discriminate].
    destruct (IH n Hn) as [Hx | (k & r & -> & Hr & Hb)]; [now left|].
    right. now exists (String c k), r.
Qed.

Lemma has_char_split (c : ascii) (k r : string) :
  has_char c (k ++ String c r) = true.
Proof.
  rewrite has_char_app. cbn [has_char]. rewrite Ascii.eqb_refl.
  now rewrite orb_true_r.
Qed.

(** A word that does not occur in [x] nor in [b] does not occur in
    [x ++ b] when [b] starts with a letter that the word has not. *)
Lemma str_in_app_stop (n x b : string) (c : ascii) :
  has_char c n = false ->
  Text.str_in n x = false -> Text.str_in n (String c b) = false ->
  Text.str_in n (x ++ String c b) = false.
Proof.
  intros Hc. induction x as [|d x IH]; intros Hx Hb; [exact Hb|].
  cbn [Text.str_in] in Hx. apply orb_false_elim in Hx.
  destruct Hx as [Hpre Hx]. cbn [append Text.str_in].
  rewrite (IH Hx Hb), orb_false_r.
  destruct (prefix n (String d (x ++ String c b))) eqn:Hp; [|reflexivity].
  destruct (prefix_app_split n (String d x) (String c b) Hp)
    as [H | (k & r & -> & Hr & Hrb)]; [congruence|].
  destruct r as [|a r]; [congruence|]. cbn [prefix] in Hrb.
  destruct (ascii_dec a c) as [->|_]; [|discriminate].
  now rewrite has_char_split in Hc.
Qed.

Lemma str_in_app_clean (n x b : string) :
  (forall c b', b = String c b' -> has_char c n = false) ->
  Text.str_in n x = false -> Text.str_in n b = false ->
  Text.str_in n (x ++ b) = false.
Proof.
  intros Hhead Hx Hb. destruct b as [|c b].
  - now rewrite app_empty_r.
  - apply str_in_app_stop; [exact (Hhead c b eq_refl) | exact Hx | exact Hb].
Qed.

(** The text of a generated query does not name its file: when the path of
    the script directory does not contain [query6_], neither does the
    query. *)
Lemma query_text_no_hint (SCRIPT_DIR : string) (i : Z) :
  ~ occurs "query6_" SCRIPT_DIR ->
  Text.str_in "query6_" (Corpus.query_text SCRIPT_DIR i) = false.
Proof.
  intros Hdir. apply str_in_absent in Hdir. unfold Corpus.query_text.
  destruct (query_path SCRIPT_DIR i) as (s1 & s2 & s3 & H1 & H2 & H3 & ->).
  assert (has_char "q" (Corpus.str i) = false) as Hstr
    by (now apply str_chars).
  rewrite !str_in_skip by reflexivity.
  rewrite !app_assoc_string.
  apply str_in_app_clean; [| exact Hdir |].
  - intros c b' Hb.
    destruct H1 as [-> | ->]; cbn [append] in Hb; injection Hb as <- _;
      reflexivity.
  - destruct H1 as [-> | ->], H2 as [-> | ->], H3 as [-> | ->];
      rewrite !str_in_skip by (reflexivity || exact Hstr); reflexivity.
Qed.

(** *** Stripping twice *)

Lemma lstrip_head (s : string) :
  Text.lstrip s = ""
  \/ exists c t, Text.lstrip s = String c t /\ Text.is_space c = false.
Proof.
  induction s as [|c s IH]; cbn [Text.lstrip]; [now left|].
  destruct (Text.is_space c) eqn:Hc; [exact IH|]. right. now exists c, s.
Qed.

Lemma rstrip_idempotent (s : string) :
  Text.rstrip (Text.rstrip s) = Text.rstrip s.
Proof.
  induction s as [|c s IH]; [reflexivity|].
  rewrite rstrip_cons.
  destruct ((Text.rstrip s =? "") && Text.is_space c)%bool eqn:Hcond;
    [reflexivity|].
  now rewrite rstrip_cons, IH, Hcond.
Qed.

Lemma strip_idempotent (s : string) :
  Text.strip (Text.strip s) = Text.strip s.
Proof.
  unfold Text.strip.
  assert (Text.lstrip (Text.rstrip (Text.lstrip s))
          = Text.rstrip (Text.lstrip s)) as ->.
  { destruct (lstrip_head s) as [-> | (c & t & -> & Hc)]; [reflexivity|].
    rewrite rstrip_cons, Hc, andb_false_r. cbn [Text.lstrip].
    now rewrite Hc. }
  apply rstrip_idempotent.
Qed.

Lemma lstrip_part (s : string) : exists a, s = a ++ Text.lstrip s.
Proof.
  induction s as [|c s [a IH]]; cbn [Text.lstrip]; [now exists ""|].
  destruct (Text.is_space c).
  - exists (String c a). cbn [append]. now rewrite <- IH.
  - now exists "".
Qed.

Lemma rstrip_part (s : string) : exists b, s = Text.rstrip s ++ b.
Proof.
  induction s as [|c s [b IH]]; [now exists ""|].
  rewrite rstrip_cons.
  destruct ((Text.rstrip s =? "") && Text.is_space c)%bool.
  - now exists (String c s).
  - exists b. cbn [append]. now rewrite <- IH.
Qed.

(** What occurs in the stripped text occurs in the text. *)
Lemma occurs_in_strip (n s : string) :
  occurs n (Text.strip s) -> occurs n s.
Proof.
  unfold Text.strip. intros Hn.
  destruct (lstrip_part s) as [a Ha].
  destruct (rstrip_part (Text.lstrip s)) as [b Hb].
  rewrite Ha, Hb. now apply occurs_app_r, occurs_app_l.
Qed.

(** *** The generated queries at the two nodes *)

(** X13: [generate_queries] either raises [ValueError] at its first file, when
    the selectivity is no number, and then writes nothing, or writes ten
    files; the value of the selectivity has no effect on them.  Each file
    that it writes is named [query6_<i>.sql] in the query directory for
    an [i] from 1 to 10, a name that [run_host_client] takes for a query
    file, and its text contains [lineitem]. *)
Theorem generate_queries_files (float : string -> option Q)
    (SCRIPT_DIR selectivity : string) :
  let r := Corpus.generate_queries float SCRIPT_DIR selectivity in
  (float selectivity = None -> r = ([], Corpus.ValueError))
  /\ (float selectivity <> None ->
      snd r = Corpus.Generated (Corpus.join SCRIPT_DIR ["queries"])
      /\ List.length (fst r) = 10%nat
      /\ forall selectivity',
           float selectivity' <> None ->
           Corpus.generate_queries float SCRIPT_DIR selectivity' = r)
  /\ forall path text,
       In (path, text) (fst r) ->
       exists i,
         (1 <= i <= 10)%Z
         /\ path = Corpus.join (Corpus.join SCRIPT_DIR ["queries"])
                     [Corpus.query_name i]
         /\ Compute.matching (Corpus.query_name i) = true
         /\ occurs "lineitem" (Text.lower text).
Proof.
  cbv zeta. unfold Corpus.generate_queries, Corpus.range_1_11.
  cbn [seq map Corpus.write_queries].
  destruct (float selectivity) as [q|] eqn:Hsel.
  - cbn [app fst snd]. split; [discriminate|]. split.
    + intros _. repeat split. intros selectivity' Hsel'.
      destruct (float selectivity'); [reflexivity | congruence].
    + intros path text Hin. cbn [In] in Hin.
      repeat (destruct Hin as [[= <- <-] | Hin];
              [ refine (ex_intro _ _ (conj _ (conj eq_refl (conj _ _))));
                [ lia | apply matching_query_name
                | apply query_text_lineitem ] | ]).
      destruct Hin.
  - split; [reflexivity|]. split; [congruence|]. intros path text [].
Qed.

Lemma generate_queries_files_witness :
  let r := Corpus.generate_queries Scenario2.float "/opt/selection" "0.5" in
  snd r = Corpus.Generated "/opt/selection/queries"
  /\ List.length (fst r) = 10%nat
  /\ Corpus.generate_queries Scenario2.float "/opt/selection" "1" = r.
Proof.
  destruct (generate_queries_files Scenario2.float "/opt/selection" "0.5")
    as (_ & Hsome & _).
  destruct (Hsome ltac:(discriminate)) as (Hdir & Hlen & Hsame).
  split; [exact Hdir|]. split; [exact Hlen|].
  apply Hsame. discriminate.
Defined.

Section GeneratedQueries.
Context `{rt : Runtime}.
Import Storage.
Local Open Scope Z_scope.

Variables (c : Connection) (cpu_count : positive) (file : list DpuRow).
Variable scale_factor : Z.
Variables (SCRIPT_DIR : string) (i : Z).

Lemma estimate_linear (query : string) :
  occurs "lineitem" (Text.lower query) ->
  estimate_scanned_rows query scale_factor = 6001215 * scale_factor.
Proof.
  intros Hin. destruct (estimate_lineitem scale_factor query Hin)
    as (H1 & H10 & Hother).
  destruct (Z.eq_dec scale_factor 1) as [E1|N1];
    [rewrite (H1 E1); lia|].
  destruct (Z.eq_dec scale_factor 10) as [E10|N10];
    [rewrite (H10 E10); lia|].
  exact (Hother N1 N10).
Qed.

(** X14: a request that carries a generated query, up to the white space around
    it, is answered with an envelope whose scanned rows are 6001215 times
    the scale factor, for every scale factor and every script directory:
    the two constants of the estimate are values of that product. *)
Theorem generated_query_scanned_rows (data : list byte) (text : string) :
  recv c = Done data -> data <> [] -> decode_utf8 data = Some text ->
  Text.strip text = Text.strip (Corpus.query_text SCRIPT_DIR i) ->
  forall payload,
    sent (fst (handle_client c cpu_count file scale_factor)) = Some payload
    <-> exists rows,
          execute c (Text.strip text) = Done rows
          /\ pickle_dumps
               (mk_payload rows (6001215 * scale_factor)
                  (query_end c - query_start c)) = Some payload
          /\ sendall c payload = Done tt.
Proof.
  intros Hrecv Hdata Hdec Htext.
  assert (request_text data (Text.strip text)) as Hreq by (exists text; auto).
  pose proof (handle_client_request c cpu_count file scale_factor data _
                Hrecv Hdata Hreq) as H.
  cbv zeta in H. rewrite estimate_linear in H; [apply H|].
  rewrite Htext. apply (occurs_strip _ _ word_lineitem).
  apply query_text_lineitem.
Qed.

(** X15: the row that the Storage Node logs for a generated query has the id
    [unknown] whenever the path of the script directory does not contain
    [query6_]: the text of the query names the data file, not the query
    file. *)
Theorem generated_query_id_unknown (data : list byte) (text : string) :
  ~ occurs "query6_" SCRIPT_DIR ->
  recv c = Done data -> data <> [] -> decode_utf8 data = Some text ->
  Text.strip text = Text.strip (Corpus.query_text SCRIPT_DIR i) ->
  forall row,
    In row (appended file (handle_client c cpu_count file scale_factor)) ->
    QueryID row = "unknown".
Proof.
  intros Hdir Hrecv Hdata Hdec Htext row Hrow.
  assert (request_text data (Text.strip text)) as Hreq by (exists text; auto).
  pose proof (handle_client_request c cpu_count file scale_factor data _
                Hrecv Hdata Hreq) as H.
  cbv zeta in H. destruct H as (_ & _ & _ & _ & Hshape).
  destruct (Hshape row Hrow) as (_ & -> & _).
  unfold extract_query_id.
  assert (Text.str_in "query6_" (Text.strip text) = false) as ->;
    [|reflexivity].
  rewrite Htext. apply str_in_absent. intros Hocc.
  apply occurs_in_strip, str_in_occurs in Hocc.
  now rewrite (query_text_no_hint SCRIPT_DIR i Hdir) in Hocc.
Qed.

End GeneratedQueries.

Lemma generated_query_scanned_rows_witness :
  exists rows,
    Storage.execute
      (Sample.served (Text.strip (Corpus.query_text "/opt/selection" 3)))
      (Text.strip (Text.strip (Corpus.query_text "/opt/selection" 3)))
    = Done rows
    /\ pickle_dumps (Runtime:=Sample.runtime)
         (mk_payload rows (6001215 * -2) (12 - 11)) = Some [x80; x02]
    /\ Storage.sendall
         (Sample.served (Text.strip (Corpus.query_text "/opt/selection" 3)))
         [x80; x02] = Done tt.
Proof.
  apply (generated_query_scanned_rows (rt:=Sample.runtime)
           (Sample.served (Text.strip (Corpus.query_text "/opt/selection" 3)))
           4 [] (-2) "/opt/selection" 3
           (list_byte_of_string
              (Text.strip (Corpus.query_text "/opt/selection" 3)))).
  - reflexivity.
  - discriminate.
  - reflexivity.
  - apply strip_idempotent.
  - reflexivity.
Defined.

Lemma generated_query_id_unknown_witness :
  exists row,
    Storage.appended []
      (Storage.handle_client (rt:=Sample.runtime)
         (Sample.served (Text.strip (Corpus.query_text "/opt/selection" 3)))
         4 [] 1) = [row]
    /\ Storage.QueryID row = "unknown".
Proof.
  eexists. split; [reflexivity|].
  apply (generated_query_id_unknown (rt:=Sample.runtime)
           (Sample.served (Text.strip (Corpus.query_text "/opt/selection" 3)))
           4 [] 1 "/opt/selection" 3
           (list_byte_of_string
              (Text.strip (Corpus.query_text "/opt/selection" 3)))
           (Text.strip (Corpus.query_text "/opt/selection" 3))).
  - now apply str_in_absent.
  - reflexivity.
  - discriminate.
  - reflexivity.
  - apply strip_idempotent.
  - now left.
Defined.

(** X16: a run over the directory that [generate_queries] has filled, when
    the files can be read and their round trips are orderly, takes the ten
    files in the order of their names as text, which is not that of their
    numbers: [query6_10.sql] comes second. *)
Theorem generated_corpus_run `{rt : Runtime} (w : Compute.Host) :
  Compute.listdir w = Done (map Corpus.query_name Corpus.range_1_11) ->
  (forall f, In f (map Corpus.query_name Corpus.range_1_11) -> readable w f) ->
  (forall f, In f (map Corpus.query_name Corpus.range_1_11) ->
             orderly_for w f) ->
  let r := Compute.run_host_client w in
  (exists m, snd r = Value m)
  /\ map Compute.QueryFile (Compute.result_file (fst r))
     = filter (present w)
         (map Corpus.query_name [1; 10; 2; 3; 4; 5; 6; 7; 8; 9]%Z).
Proof.
  intros Hlist Hread Hord. cbv zeta.
  destruct (run_returns w _ Hlist (fun f Hf _ => Hread f Hf)
              (fun f Hf _ => Hord f Hf))
    as (Hret & Hnames).
  split; [exact Hret|]. rewrite Hnames. reflexivity.
Qed.

Lemma generated_corpus_run_witness :
  let r := Compute.run_host_client (rt:=Sample.runtime) Scenario2.generated in
  (exists m, snd r = Value m)
  /\ map Compute.QueryFile (Compute.result_file (fst r))
     = filter (present Scenario2.generated)
         (map Corpus.query_name [1; 10; 2; 3; 4; 5; 6; 7; 8; 9]%Z).
Proof.
  apply (generated_corpus_run (rt:=Sample.runtime) Scenario2.generated).
  - reflexivity.
  - intros f _ e He. discriminate He.
  - intros f _ query i [= <-]. apply answered_orderly.
    intros H. vm_compute in H. discriminate H.
Defined.

(* ================================================================= *)
(** ** The selected metrics *)

Lemma dict_find_set_same (d : Driver.dict) (k : string) (v : Q) :
  Driver.dict_find (Driver.dict_set d k v) k = Some v.
Proof.
  induction d as [|[k' x] d IH]; cbn [Driver.dict_set Driver.dict_find].
  - now rewrite String.eqb_refl.
  - destruct (String.eqb_spec k' k) as [->|Hk];
      cbn [Driver.dict_find].
    + now rewrite String.eqb_refl.
    + now rewrite (proj2 (String.eqb_neq k' k) Hk).
Qed.

Lemma dict_find_set_other (d : Driver.dict) (k k' : string) (v : Q) :
  k <> k' ->
  Driver.dict_find (Driver.dict_set d k v) k' = Driver.dict_find d k'.
Proof.
  intros Hk. induction d as [|[k0 x] d IH];
    cbn [Driver.dict_set Driver.dict_find].
  - now rewrite (proj2 (String.eqb_neq k k') Hk).
  - destruct (String.eqb_spec k0 k) as [->|H0]; cbn [Driver.dict_find].
    + now rewrite (proj2 (String.eqb_neq k k') Hk).
    + now rewrite IH.
Qed.

Lemma dict_set_keys (d : Driver.dict) (k : string) (v : Q) :
  map fst (Driver.dict_set d k v)
  = if in_dec string_dec k (map fst d) then map fst d
    else (map fst d ++ [k])%list.
Proof.
  induction d as [|[k0 x] d IH]; cbn [Driver.dict_set map fst];
    [reflexivity|].
  destruct (String.eqb_spec k0 k) as [->|H0]; cbn [map fst].
  - destruct (in_dec string_dec k (k :: map fst d)) as [_|Hn];
      [reflexivity|]. exfalso. apply Hn. now left.
  - rewrite IH. destruct (in_dec string_dec k (map fst d)) as [Hin|Hout];
      destruct (in_dec string_dec k (k0 :: map fst d)) as [Hin'|Hout'];
      try reflexivity.
    + exfalso. apply Hout'. now right.
    + exfalso. destruct Hin' as [E|Hin']; [congruence | contradiction].
Qed.

Lemma dict_set_nodup (d : Driver.dict) (k : string) (v : Q) :
  NoDup (map fst d) -> NoDup (map fst (Driver.dict_set d k v)).
Proof.
  intros Hd. rewrite dict_set_keys.
  destruct (in_dec string_dec k (map fst d)) as [Hin|Hout]; [exact Hd|].
  apply NoDup_app; [exact Hd | repeat constructor; intros [] |].
  intros x Hx [<- | []]. contradiction.
Qed.

Lemma final_metrics_fold (data : Driver.dict) (names : list string)
    (acc : Driver.dict) :
  let f := fun acc metric =>
             Driver.dict_set acc metric (Driver.dict_get data metric 0) in
  let r := fold_left f names acc in
  (forall name, In name names ->
     Driver.dict_find r name = Some (Driver.dict_get data name 0))
  /\ (forall name, ~ In name names ->
        Driver.dict_find r name = Driver.dict_find acc name)
  /\ (NoDup (map fst acc) -> NoDup (map fst r)).
Proof.
  cbv zeta. revert acc. induction names as [|n names IH]; intros acc.
  - cbn [fold_left]. repeat split; [intros name [] | auto].
  - cbn [fold_left].
    destruct (IH (Driver.dict_set acc n (Driver.dict_get data n 0)))
      as (Hin & Hout & Hnodup).
    repeat split.
    + intros name Hname.
      destruct (in_dec string_dec name names) as [Hrest|Hrest];
        [now apply Hin|].
      destruct Hname as [<- | Hname]; [|contradiction].
      rewrite (Hout n Hrest). apply dict_find_set_same.
    + intros name Hname. rewrite Hout by (intros H; apply Hname; now right).
      apply dict_find_set_other. intros ->. apply Hname. now left.
    + intros Hacc. now apply Hnodup, dict_set_nodup.
Qed.

Lemma dict_get_absent (d : Driver.dict) (k : string) (default : Q) :
  ~ In k (map fst d) -> Driver.dict_get d k default = default.
Proof.
  induction d as [|[k0 x] d IH]; cbn [Driver.dict_get map fst In];
    [reflexivity|].
  intros Hk. destruct (String.eqb_spec k0 k) as [->|_]; [tauto|].
  apply IH. tauto.
Qed.

(** X17: the metrics that [main] writes to [final_metrics.json]: one entry for
    each name that was asked for, however often, and none for another
    name; the entry of a name carries the value of the summary, and 0 when
    the summary has no such name, as for a name in another case of the
    letters.  Without [--metrics] the only entry is [ThroughPut]. *)
Theorem final_metrics_selects (given : option (list string))
    (m : Compute.AggregateSummary) :
  let data := Driver.metrics_data m in
  let final := Driver.final_metrics (Driver.metrics given) data in
  NoDup (map fst final)
  /\ (forall name, In name (Driver.metrics given) ->
        Driver.dict_find final name = Some (Driver.dict_get data name 0))
  /\ (forall name, ~ In name (Driver.metrics given) ->
        Driver.dict_find final name = None)
  /\ (forall name, In name (Driver.metrics given) ->
        ~ In name (map fst data) ->
        Driver.dict_find final name = Some 0%Q)
  /\ (given = None -> final = [("ThroughPut", Compute.ThroughPut m)]).
Proof.
  cbv zeta. unfold Driver.final_metrics.
  destruct (final_metrics_fold (Driver.metrics_data m) (Driver.metrics given)
              []) as (Hin & Hout & Hnodup).
  split; [apply Hnodup; constructor|]. split; [exact Hin|].
  split; [intros name Hname; now rewrite (Hout name Hname)|]. split.
  - intros name Hname Hkey. rewrite (Hin name Hname).
    now rewrite (dict_get_absent _ _ _ Hkey).
  - intros ->. reflexivity.
Qed.

Lemma final_metrics_selects_witness :
  let m := Compute.mk_summary 5 6 7 8 9 in
  let final :=
    Driver.final_metrics ["cpu_usage"; "Throughput"; "cpu_usage"]
      (Driver.metrics_data m) in
  Driver.dict_find final "cpu_usage" = Some 7%Q
  /\ Driver.dict_find final "Throughput" = Some 0%Q
  /\ Driver.dict_find final "ThroughPut" = None.
Proof.
  destruct (final_metrics_selects
              (Some ["cpu_usage"; "Throughput"; "cpu_usage"])
              (Compute.mk_summary 5 6 7 8 9))
    as (_ & Hin & Hout & Hzero & _).
  split; [apply (Hin "cpu_usage"); now left|]. split.
  - apply (Hzero "Throughput"); [right; now left|].
    intros H. cbn in H.
    repeat (destruct H as [H|H]; [discriminate H|]). exact H.
  - apply (Hout "ThroughPut"). intros H. cbn in H.
    repeat (destruct H as [H|H]; [discriminate H|]). exact H.
Defined.
